(* Verification development for internet_monitor.py (Internet Connection
   Monitor): connectivity probes, the connection state machine, the speed-test
   runner with its fallback tool, and the summary report.

   Modelling conventions.
   - Timestamps ([datetime.now()]) are integers (microseconds since some
     epoch); they are inputs of the operations that read the clock.
   - Python floats are modelled as rationals [Q]; the values the claims are
     about (counts, quotients by 10^6, percentages) are exact in both.
   - External effects (subprocess.run, requests.get) are environment
     functions passed to the operations; rows appended to the CSV series are
     kept in an explicit state.
   - Python exceptions are an inductive [pyexc]; a fallible computation
     returns [inl e] when it raises [e]. *)

From Stdlib Require Import ZArith QArith Qfield List Ascii String Bool Lia.
From Stdlib Require Sorting.Sorted.
Import ListNotations.
Open Scope Z_scope.
Set Warnings "-register-all".

(* ------------------------------------------------------------------ *)
(** * Connection state (InternetMonitor.__init__, _handle_connection_state) *)

Module Conn.

Definition timestamp := Z.

Record conn_state := mk_conn_state {
  is_connected : bool;
  disconnect_start : option timestamp;
  last_successful_ping : timestamp
}.

(** A row of events.csv written on connection restore:
    [timestamp, 'disconnect', duration_seconds, details]; the details string
    [f"Disconnected from {start} to {now}"] is kept as its two timestamps. *)
Record disconnect_event := mk_event {
  ev_timestamp : timestamp;
  ev_type : string;
  ev_duration : Z;
  ev_details : timestamp * timestamp
}.

(** [__init__]: [is_connected = True], [disconnect_start = None],
    [last_successful_ping = datetime.now()]. *)
Definition init_state (now : timestamp) : conn_state :=
  mk_conn_state true None now.

(** [_handle_connection_state(connected)] at clock value [now]: the new state,
    and the event row appended to events.csv, if any. *)
Definition handle_connection_state (now : timestamp) (connected : bool)
    (st : conn_state) : conn_state * option disconnect_event :=
  if connected && negb (is_connected st) then
    let ev :=
      match disconnect_start st with
      | Some start =>
          Some (mk_event start "disconnect" (now - start) (start, now))
      | None => None
      end in
    (mk_conn_state true None now, ev)
  else if negb connected && is_connected st then
    (mk_conn_state false (Some now) (last_successful_ping st), None)
  else if connected then
    (mk_conn_state (is_connected st) (disconnect_start st) now, None)
  else (st, None).

(** Feeding a sequence of (clock, verdict) pairs, one per connectivity check:
    the final state and the per-check event outputs, in order. *)
Fixpoint run_verdicts (inputs : list (timestamp * bool)) (st : conn_state)
    : conn_state * list (option disconnect_event) :=
  match inputs with
  | [] => (st, [])
  | (now, v) :: rest =>
      let (st1, ev) := handle_connection_state now v st in
      let (st2, evs) := run_verdicts rest st1 in
      (st2, ev :: evs)
  end.

(** The state invariant of the spec: [disconnect_start] is set exactly when
    [is_connected] is false. *)
Definition state_inv (st : conn_state) : Prop :=
  disconnect_start st <> None <-> is_connected st = false.

End Conn.

(* ------------------------------------------------------------------ *)
(** * Probes and the connectivity verdict (http_test, test_connectivity) *)

Module Probe.

(** Python's [a > b] on numbers. *)
Definition py_gt (a b : Q) : bool := negb (Qle_bool a b).

(** The arguments of [requests.get(url, timeout=5, allow_redirects=False)]. *)
Record http_request := mk_http_request {
  req_url : string;
  req_timeout : Z;
  req_allow_redirects : bool
}.

(** What [requests.get] does: return a response with a status code, raise a
    [requests.exceptions.RequestException] (connection error, timeout, ...),
    or raise some other exception. *)
Inductive http_outcome :=
| HttpResponse (status_code : Z)
| HttpRequestException (msg : string)
| HttpOtherException (msg : string).

Definition ok_status_codes : list Z := [200; 301; 302; 303; 307; 308].

(** [http_test(url)]: [get] is the network, [t_start] and [t_end] the two
    [time.time()] readings around the request. Both [except] clauses return
    [(False, None)]. *)
Definition http_test (get : http_request -> http_outcome) (t_start t_end : Q)
    (url : string) : bool * option Q :=
  match get (mk_http_request url 5 false) with
  | HttpResponse code =>
      let response_time := ((t_end - t_start) * 1000)%Q in
      if existsb (Z.eqb code) ok_status_codes then (true, Some response_time)
      else (false, None)
  | HttpRequestException _ => (false, None)
  | HttpOtherException _ => (false, None)
  end.

(** A row of connectivity.csv:
    [timestamp, status, target, response_time_ms, method]. *)
Record conn_row := mk_conn_row {
  row_timestamp : Z;
  row_status : string;
  row_target : string;
  row_response_time_ms : option Q;
  row_method : string
}.

(** One loop of [test_connectivity]: probe every target with [probe], append a
    row per result, and count totals and successes. *)
Fixpoint probe_loop (probe : string -> bool * option Q) (method : string)
    (now : Z) (targets : list string) (results : list conn_row)
    (successful_tests total_tests : Z) : list conn_row * Z * Z :=
  match targets with
  | [] => (results, successful_tests, total_tests)
  | target :: rest =>
      let (success, response_time) := probe target in
      let row := mk_conn_row now
                   (if success then "connected" else "disconnected")
                   target response_time method in
      probe_loop probe method now rest (results ++ [row])
        (if success then successful_tests + 1 else successful_tests)
        (total_tests + 1)
  end.

(** The verdict of a batch: [successful_tests > (total_tests * 0.5)]. *)
Definition verdict (successful_tests total_tests : Z) : bool :=
  py_gt (inject_Z successful_tests) (inject_Z total_tests * (1#2))%Q.

(** [test_connectivity()]: [ping] and [http] are the results of [ping_test]
    and [http_test] per target; [now] is the clock for the batch. Returns the
    verdict, the rows appended to connectivity.csv, the new connection state
    and the event row, if any. *)
Definition test_connectivity (ping http : string -> bool * option Q)
    (ping_targets http_targets : list string) (now : Z) (st : Conn.conn_state)
    : bool * list conn_row * Conn.conn_state * option Conn.disconnect_event :=
  let '(results1, s1, t1) := probe_loop ping "ping" now ping_targets [] 0 0 in
  let '(results, successful_tests, total_tests) :=
      probe_loop http "http" now http_targets results1 s1 t1 in
  let connected := verdict successful_tests total_tests in
  let (st', ev) := Conn.handle_connection_state now connected st in
  (connected, results, st', ev).

(** The probe outcomes of a batch, in probe order. *)
Definition batch (ping http : string -> bool * option Q)
    (ping_targets http_targets : list string) : list bool :=
  map (fun t => fst (ping t)) ping_targets ++
  map (fun t => fst (http t)) http_targets.

Definition count_true (l : list bool) : Z :=
  Z.of_nat (List.length (filter (fun b => b) l)).

End Probe.

(* ------------------------------------------------------------------ *)
(** * The speed-test runner (run_speedtest) *)

Module Speed.

Local Open Scope string_scope.

(** JSON values as [json.loads] returns them. *)
Inductive json :=
| JNull
| JBool (b : bool)
| JNum (q : Q)
| JStr (s : string)
| JArr (l : list json)
| JObj (kvs : list (string * json)).

(** Key lookup in a parsed JSON object; as in the dict [json.loads] builds,
    the last binding of a repeated key wins. *)
Fixpoint dict_lookup (k : string) (kvs : list (string * json)) : option json :=
  match kvs with
  | [] => None
  | (k', v) :: rest =>
      match dict_lookup k rest with
      | Some w => Some w
      | None => if String.eqb k k' then Some v else None
      end
  end.

(** The Python exceptions the runner can meet. *)
Inductive pyexc :=
| FileNotFoundError (filename : string)
| TimeoutExpired (cmd0 : string)
| JSONDecodeError (msg : string)
| KeyError (key : string)
| TypeError (msg : string)
| AttributeError (msg : string)
| ValueError (msg : string)
| Exception (msg : string).

(** [str(e)]. *)
Definition exc_str (e : pyexc) : string :=
  match e with
  | FileNotFoundError f => "[Errno 2] No such file or directory: '" ++ f ++ "'"
  | TimeoutExpired c => "Command '" ++ c ++ "' timed out after 120 seconds"
  | JSONDecodeError m => m
  | KeyError k => "'" ++ k ++ "'"
  | TypeError m => m
  | AttributeError m => m
  | ValueError m => m
  | Exception m => m
  end.

(** What [subprocess.run(cmd, capture_output=True, text=True, timeout=120)]
    returns: the exit code, and [json.loads(result.stdout)] ([None] when
    [json.loads] raises on that output). *)
Record completed := mk_completed {
  returncode : Z;
  stdout_json : option json
}.

(** The process environment: the outcome of running a command line, either an
    exception raised by [subprocess.run] (missing executable, timeout, ...) or
    a completed process. *)
Definition process_env := list string -> pyexc + completed.

(** A row of speedtest.csv:
    [timestamp, download_mbps, upload_mbps, ping_ms, server, status];
    [None] is Python's [None]. The server cell [f"{a} - {b}"] is kept as its
    two interpolated values. *)
Record speed_row := mk_speed_row {
  sr_timestamp : Z;
  sr_download_mbps : option Q;
  sr_upload_mbps : option Q;
  sr_ping_ms : option json;
  sr_server : option (json * json);
  sr_status : string
}.

(** The effects of the runner: the command lines it has started, and the rows
    appended to speedtest.csv (appending is taken not to fail). *)
Record speed_state := mk_speed_state {
  invoked : list (list string);
  speed_rows : list speed_row
}.

(** A state and exception monad. *)
Definition M (A : Type) := speed_state -> (pyexc + A) * speed_state.

Definition ret {A} (a : A) : M A := fun st => (inr a, st).
Definition raise {A} (e : pyexc) : M A := fun st => (inl e, st).
Definition bind {A B} (m : M A) (k : A -> M B) : M B :=
  fun st => match m st with
            | (inl e, st') => (inl e, st')
            | (inr a, st') => k a st'
            end.

Notation "x <- m ;; k" := (bind m (fun x => k))
  (at level 61, m at next level, right associativity).

(** [try: m except Exception as e: h(e)]. *)
Definition catch_all {A} (m : M A) (h : pyexc -> M A) : M A :=
  fun st => match m st with
            | (inl e, st') => h e st'
            | (inr a, st') => (inr a, st')
            end.

(** [try: m except FileNotFoundError: h]. *)
Definition catch_fnf {A} (m : M A) (h : M A) : M A :=
  catch_all m (fun e => match e with
                        | FileNotFoundError _ => h
                        | _ => raise e
                        end).

Definition subprocess_run (env : process_env) (cmd : list string)
    : M completed :=
  fun st =>
    let st' := mk_speed_state (app (invoked st) [cmd]) (speed_rows st) in
    match env cmd with
    | inl e => (inl e, st')
    | inr r => (inr r, st')
    end.

Definition json_loads (r : completed) : M json :=
  match stdout_json r with
  | Some j => ret j
  | None => raise (JSONDecodeError "Expecting value: line 1 column 1 (char 0)")
  end.

Definition append_row (row : speed_row) : M unit :=
  fun st => (inr tt, mk_speed_state (invoked st) (app (speed_rows st) [row])).

(** [d.get(k, default)]. *)
Definition py_get (d : json) (k : string) (default : json) : M json :=
  match d with
  | JObj kvs =>
      ret (match dict_lookup k kvs with Some v => v | None => default end)
  | _ => raise (AttributeError "object has no attribute 'get'")
  end.

(** [d[k]]. *)
Definition py_index (d : json) (k : string) : M json :=
  match d with
  | JObj kvs =>
      match dict_lookup k kvs with Some v => ret v | None => raise (KeyError k) end
  | JArr _ => raise (TypeError "list indices must be integers or slices, not str")
  | JStr _ => raise (TypeError "string indices must be integers")
  | _ => raise (TypeError "object is not subscriptable")
  end.

(** [x / 1_000_000] (a Python bool is an int). *)
Definition div_mega (x : json) : M Q :=
  match x with
  | JNum q => ret (q / 1000000)%Q
  | JBool b => ret ((if b then 1 else 0) / 1000000)%Q
  | _ => raise (TypeError "unsupported operand type(s) for /: 'str' and 'int'")
  end.

(** [f"{x:.1f}"]: only numbers accept the [.1f] format. *)
Definition format_1f (x : json) : M unit :=
  match x with
  | JNum _ | JBool _ => ret tt
  | JStr _ => raise (ValueError "Unknown format code 'f' for object of type 'str'")
  | _ => raise (TypeError "unsupported format string passed to type.__format__")
  end.

Definition primary_cmd : list string := ["speedtest"; "--format=json"].
Definition fallback_cmd : list string := ["speedtest-cli"; "--json"].

Definition both_failed_msg : string := "Both speedtest CLIs failed".
Definition not_found_msg : string :=
  "speedtest CLI not found. Install with: curl -s https://packagecloud.io/install/repositories/ookla/speedtest-cli/script.deb.sh | sudo bash && sudo apt-get install speedtest".

(** The measured values: download and upload in Mbps, the ping value, and the
    two parts of the server label. *)
Definition measurement := (Q * Q * json * (json * json))%type.

(** Reading the Ookla CLI schema (lines 256-261). *)
Definition parse_primary (data : json) : M measurement :=
  d <- py_get data "download" (JObj []) ;;
  bw <- py_get d "bandwidth" (JNum 0) ;;
  download_mbps <- div_mega bw ;;
  u <- py_get data "upload" (JObj []) ;;
  bw' <- py_get u "bandwidth" (JNum 0) ;;
  upload_mbps <- div_mega bw' ;;
  p <- py_get data "ping" (JObj []) ;;
  ping_ms <- py_get p "latency" (JNum 0) ;;
  s <- py_get data "server" (JObj []) ;;
  name <- py_get s "name" (JStr "Unknown") ;;
  s' <- py_get data "server" (JObj []) ;;
  location <- py_get s' "location" (JStr "") ;;
  ret (download_mbps, upload_mbps, ping_ms, (name, location)).

(** Reading the speedtest-cli schema (lines 268-272 and 281-285). *)
Definition parse_fallback (data : json) : M measurement :=
  d <- py_index data "download" ;;
  download_mbps <- div_mega d ;;
  u <- py_index data "upload" ;;
  upload_mbps <- div_mega u ;;
  ping_ms <- py_index data "ping" ;;
  s <- py_index data "server" ;;
  sponsor <- py_index s "sponsor" ;;
  s' <- py_index data "server" ;;
  name <- py_index s' "name" ;;
  ret (download_mbps, upload_mbps, ping_ms, (sponsor, name)).

(** Running the fallback tool; [msg] is the message raised on a non-zero exit. *)
Definition run_fallback (env : process_env) (msg : string) : M measurement :=
  result <- subprocess_run env fallback_cmd ;;
  if Z.eqb (returncode result) 0 then
    data <- json_loads result ;;
    parse_fallback data
  else raise (Exception msg).

(** The inner [try ... except FileNotFoundError] of lines 253-287. *)
Definition measure (env : process_env) : M measurement :=
  catch_fnf
    (result <- subprocess_run env primary_cmd ;;
     if Z.eqb (returncode result) 0 then
       data <- json_loads result ;;
       parse_primary data
     else run_fallback env both_failed_msg)
    (run_fallback env not_found_msg).

Definition success_row (now : Z) (m : measurement) : speed_row :=
  let '(download_mbps, upload_mbps, ping_ms, server) := m in
  mk_speed_row now (Some download_mbps) (Some upload_mbps) (Some ping_ms)
    (Some server) "success".

Definition failed_row (now : Z) (e : pyexc) : speed_row :=
  mk_speed_row now None None None None ("failed: " ++ exc_str e).

(** [run_speedtest()]; [now] is the clock when the row is written. *)
Definition run_speedtest (env : process_env) (now : Z) : M bool :=
  catch_all
    (m <- measure env ;;
     let '(_, _, ping_ms, _) := m in
     _ <- format_1f ping_ms ;;
     _ <- append_row (success_row now m) ;;
     ret true)
    (fun e =>
       _ <- append_row (failed_row now e) ;;
       ret false).

(** Shapes of the Ookla fields that [run_speedtest] reads with [.get]: the
    field is absent, or it is an object whose inner field is absent or a
    number. *)
Definition bandwidth_field_ok (o : option json) : Prop :=
  match o with
  | None => True
  | Some (JObj sub) =>
      match dict_lookup "bandwidth" sub with
      | None | Some (JNum _) => True
      | Some _ => False
      end
  | Some _ => False
  end.

Definition latency_field_ok (o : option json) : Prop :=
  match o with
  | None => True
  | Some (JObj sub) =>
      match dict_lookup "latency" sub with
      | None | Some (JNum _) => True
      | Some _ => False
      end
  | Some _ => False
  end.

Definition server_field_ok (o : option json) : Prop :=
  match o with
  | None | Some (JObj _) => True
  | Some _ => False
  end.

(** A computation that appends no row to speedtest.csv. *)
Definition keeps_rows {A} (m : M A) : Prop :=
  forall st, speed_rows (snd (m st)) = speed_rows st.

(** The primary tool fails: it is absent, or it exits non-zero. *)
Definition primary_fails (env : process_env) : Prop :=
  (exists f, env primary_cmd = inl (FileNotFoundError f)) \/
  (exists c, env primary_cmd = inr c /\ returncode c <> 0).

(** The fallback tool fails: [subprocess.run] raises (absent, timeout, ...),
    it exits non-zero, or its output is not JSON or not of its schema. *)
Definition fallback_fails (env : process_env) : Prop :=
  (exists e, env fallback_cmd = inl e) \/
  (exists c, env fallback_cmd = inr c /\ returncode c <> 0) \/
  (exists c, env fallback_cmd = inr c /\ returncode c = 0 /\ stdout_json c = None) \/
  (exists c j e, env fallback_cmd = inr c /\ returncode c = 0 /\
     stdout_json c = Some j /\ forall st, fst (parse_fallback j st) = inl e).

End Speed.

(* ------------------------------------------------------------------ *)
(** * The summary report (generate_report) *)

Module Report.

Local Open Scope string_scope.

Definition pyexc := Speed.pyexc.

(** A series file: [None] when it does not exist, otherwise the rows
    [csv.reader] yields, the header first. *)
Definition csv_file := option (list (list string)).

(** A [csv.DictReader] row: the header fields zipped with the row's values, a
    field past the end of the row mapped to [None] (restval). *)
Definition dict_row := list (string * option string).

Fixpoint make_dict (header : list string) (row : list string) : dict_row :=
  match header, row with
  | [], _ => []
  | k :: ks, v :: vs => (k, Some v) :: make_dict ks vs
  | k :: ks, [] => (k, None) :: make_dict ks []
  end.

(** [list(csv.DictReader(f))]: the first row is the header, empty rows are
    skipped. *)
Definition dict_reader (rows : list (list string)) : list dict_row :=
  match rows with
  | [] => []
  | header :: data =>
      map (make_dict header)
        (filter (fun r => match r with [] => false | _ => true end) data)
  end.

(** [r[k]]: the last binding of [k] wins, a field not in the header raises
    [KeyError]. *)
Fixpoint row_get (r : dict_row) (k : string) : pyexc + option string :=
  match r with
  | [] => inl (Speed.KeyError k)
  | (k', v) :: rest =>
      match row_get rest k with
      | inr w => inr w
      | inl e => if String.eqb k k' then inr v else inl e
      end
  end.

(** [r[k] == s]. *)
Definition field_is (k s : string) (r : dict_row) : pyexc + bool :=
  match row_get r k with
  | inl e => inl e
  | inr v => inr (match v with Some v' => String.eqb v' s | None => false end)
  end.

(** A list comprehension [[x for x in l if p(x)]] whose condition may raise. *)
Fixpoint filter_exc {A} (p : A -> pyexc + bool) (l : list A) : pyexc + list A :=
  match l with
  | [] => inr []
  | x :: xs =>
      match p x with
      | inl e => inl e
      | inr b =>
          match filter_exc p xs with
          | inl e => inl e
          | inr ys => inr (if b then x :: ys else ys)
          end
      end
  end.

(** [[f(x) for x in l]] with an [f] that may raise. *)
Fixpoint map_exc {A B} (f : A -> pyexc + B) (l : list A) : pyexc + list B :=
  match l with
  | [] => inr []
  | x :: xs =>
      match f x with
      | inl e => inl e
      | inr y =>
          match map_exc f xs with
          | inl e => inl e
          | inr ys => inr (y :: ys)
          end
      end
  end.

(** ** [float(s)] on a string.
    A value's characters are taken as code points below 256. Python accepts,
    between whitespace ([str.isspace]), an optional sign followed by either
    digits with an optional fraction and an optional exponent, where a single
    [_] may separate two digits, or one of the words [inf], [infinity] and
    [nan] in any case; all else raises [ValueError]. Finite values are taken
    as exact rationals: the rounding of binary floating point is not
    modelled. *)

Inductive pyfloat :=
| Fin (q : Q)
| Inf (negative : bool)
| NaN.

Definition is_space (c : Ascii.ascii) : bool :=
  match Ascii.nat_of_ascii c with
  | 9 | 10 | 11 | 12 | 13 | 28 | 29 | 30 | 31 | 32 | 133 | 160 => true
  | _ => false
  end%nat.

Fixpoint drop_spaces (l : list Ascii.ascii) : list Ascii.ascii :=
  match l with
  | c :: rest => if is_space c then drop_spaces rest else l
  | [] => []
  end.

Definition digit_val (c : Ascii.ascii) : option Z :=
  let n := Ascii.nat_of_ascii c in
  if Nat.leb 48 n && Nat.leb n 57 then Some (Z.of_nat n - 48)%Z else None.

(** The leading digits, a single [_] being allowed between two of them:
    their count, their value, and the rest. *)
Fixpoint take_digits (l : list Ascii.ascii) (count : nat) (acc : Z)
    : nat * Z * list Ascii.ascii :=
  match l with
  | c :: rest =>
      match digit_val c with
      | Some d => take_digits rest (S count) (acc * 10 + d)%Z
      | None =>
          if Ascii.eqb c "_"%char && negb (Nat.eqb count 0) then
            match rest with
            | c2 :: rest2 =>
                match digit_val c2 with
                | Some d => take_digits rest2 (S count) (acc * 10 + d)%Z
                | None => (count, acc, l)
                end
            | [] => (count, acc, l)
            end
          else (count, acc, l)
      end
  | [] => (count, acc, l)
  end.

Definition take_sign (l : list Ascii.ascii) : Z * list Ascii.ascii :=
  match l with
  | "-"%char :: rest => (-1, rest)%Z
  | "+"%char :: rest => (1%Z, rest)
  | _ => (1%Z, l)
  end.

Definition scale (m : Z) (e : Z) : Q :=
  (if Z.leb 0 e then inject_Z (m * 10 ^ e) else (m # Z.to_pos (10 ^ (- e)))%Q)%Z.

Definition lower_char (c : Ascii.ascii) : Ascii.ascii :=
  let n := Ascii.nat_of_ascii c in
  if Nat.leb 65 n && Nat.leb n 90 then Ascii.ascii_of_nat (n + 32) else c.

(** [l] is the word [w] (lower case) in any case, then whitespace only. *)
Definition is_word (w : string) (l : list Ascii.ascii) : bool :=
  let n := List.length (list_ascii_of_string w) in
  (if list_eq_dec Ascii.ascii_dec (map lower_char (firstn n l)) (list_ascii_of_string w)
   then true else false)
  && match drop_spaces (skipn n l) with [] => true | _ => false end.

(** The words [inf], [infinity] and [nan] after the sign. *)
Definition special_value (sgn : Z) (l : list Ascii.ascii) : option pyfloat :=
  if is_word "inf" l || is_word "infinity" l then Some (Inf (Z.ltb sgn 0))
  else if is_word "nan" l then Some NaN
  else None.

Definition parse_float_chars (l : list Ascii.ascii) : option pyfloat :=
  let '(sgn, l1) := take_sign (drop_spaces l) in
  match special_value sgn l1 with
  | Some f => Some f
  | None =>
  let '(n_int, v_int, l2) := take_digits l1 0 0 in
  let '(n_frac, v_frac, l3) :=
      match l2 with
      | "."%char :: rest => take_digits rest 0 0
      | _ => (0%nat, 0, l2)
      end in
  if Nat.eqb (n_int + n_frac) 0 then None else
  let mantissa := (v_int * 10 ^ Z.of_nat n_frac + v_frac)%Z in
  let '(ex, l4) :=
      match l3 with
      | c :: rest =>
          if orb (Ascii.eqb c "e"%char) (Ascii.eqb c "E"%char) then
            let '(esgn, r1) := take_sign rest in
            let '(n_e, v_e, r2) := take_digits r1 0 0 in
            if Nat.eqb n_e 0 then (None, l3) else (Some (esgn * v_e)%Z, r2)
          else (Some 0%Z, l3)
      | [] => (Some 0%Z, l3)
      end in
  match ex, drop_spaces l4 with
  | Some ex', [] => Some (Fin (scale (sgn * mantissa) (ex' - Z.of_nat n_frac)))%Z
  | _, _ => None
  end
  end.

(** [float(v)] for a DictReader value: [float(None)] raises [TypeError]. *)
Definition py_float (v : option string) : pyexc + pyfloat :=
  match v with
  | None => inl (Speed.TypeError "float() argument must be a string or a real number, not 'NoneType'")
  | Some s =>
      match parse_float_chars (list_ascii_of_string s) with
      | Some q => inr q
      | None => inl (Speed.ValueError ("could not convert string to float: '" ++ s ++ "'"))
      end
  end.

(** Float addition and division by a positive count, with IEEE infinities
    and NaN. *)
Definition fadd (a b : pyfloat) : pyfloat :=
  match a, b with
  | NaN, _ | _, NaN => NaN
  | Inf s, Inf t => if Bool.eqb s t then Inf s else NaN
  | Inf s, Fin _ | Fin _, Inf s => Inf s
  | Fin x, Fin y => Fin (x + y)%Q
  end.

Definition fdiv (a : pyfloat) (n : Z) : pyfloat :=
  match a with
  | Fin x => Fin (x / inject_Z n)%Q
  | Inf s => Inf s
  | NaN => NaN
  end.

(** [a < b] on floats: false whenever NaN is involved. *)
Definition flt (a b : pyfloat) : bool :=
  match a, b with
  | NaN, _ | _, NaN => false
  | Fin x, Fin y => negb (Qle_bool y x)
  | Inf true, Inf true => false
  | Inf true, _ => true
  | Inf false, _ => false
  | Fin _, Inf s => negb s
  end.

(** ** The three summary sections *)

Inductive section :=
| Header
  (** "Internet Connection Monitoring Report", the rule and the
      "Generated:" line *)
| ConnectivitySummary (total_tests failed_tests : Z) (success_rate : Q)
| DisconnectionSummary (count : Z) (total_downtime avg_disconnect_duration : pyfloat)
| SpeedTestSummary (total successful : Z)
    (avg_download avg_upload min_download max_download : pyfloat).

Definition count (l : list dict_row) : Z := Z.of_nat (List.length l).

(** [sum(l)]: the int [0] plus the floats in turn. *)
Definition sumF (l : list pyfloat) : pyfloat := fold_left fadd l (Fin 0).

(** Python's [min] and [max] on a non-empty list: an item replaces the
    current one when [item < current] (resp. [item > current]). *)
Definition minF (l : list pyfloat) : pyfloat :=
  match l with
  | [] => Fin 0
  | x :: xs => fold_left (fun m y => if flt y m then y else m) xs x
  end.

Definition maxF (l : list pyfloat) : pyfloat :=
  match l with
  | [] => Fin 0
  | x :: xs => fold_left (fun m y => if flt m y then y else m) xs x
  end.

(** Lines 330-342. *)
Definition connectivity_summary (f : csv_file) : pyexc + option section :=
  match f with
  | None => inr None
  | Some rows =>
      let connectivity_data := dict_reader rows in
      let total_tests := count connectivity_data in
      match filter_exc (field_is "status" "disconnected") connectivity_data with
      | inl e => inl e
      | inr failed =>
          let failed_tests := count failed in
          let success_rate :=
              if Z.ltb 0 total_tests then
                ((inject_Z (total_tests - failed_tests) / inject_Z total_tests)
                 * 100)%Q
              else 0%Q in
          inr (Some (ConnectivitySummary total_tests failed_tests success_rate))
      end
  end.

(** Lines 345-359. *)
Definition disconnection_summary (f : csv_file) : pyexc + option section :=
  match f with
  | None => inr None
  | Some rows =>
      let events_data := dict_reader rows in
      match filter_exc (field_is "event_type" "disconnect") events_data with
      | inl e => inl e
      | inr [] => inr None
      | inr disconnects =>
          match map_exc (fun d => match row_get d "duration_seconds" with
                                  | inl e => inl e
                                  | inr v => py_float v
                                  end) disconnects with
          | inl e => inl e
          | inr durations =>
              let total_downtime := sumF durations in
              let n := count disconnects in
              inr (Some (DisconnectionSummary n total_downtime
                           (fdiv total_downtime n)))
          end
      end
  end.

(** [float(s[k])] for every row. *)
Definition floats_of (k : string) (l : list dict_row) : pyexc + list pyfloat :=
  map_exc (fun s => match row_get s k with
                    | inl e => inl e
                    | inr v => py_float v
                    end) l.

(** Lines 362-379. *)
Definition speedtest_summary (f : csv_file) : pyexc + option section :=
  match f with
  | None => inr None
  | Some rows =>
      let speedtest_data := dict_reader rows in
      match filter_exc (field_is "status" "success") speedtest_data with
      | inl e => inl e
      | inr [] => inr None
      | inr successful_tests =>
          match floats_of "download_mbps" successful_tests with
          | inl e => inl e
          | inr download_speeds =>
              match floats_of "upload_mbps" successful_tests with
              | inl e => inl e
              | inr upload_speeds =>
                  let n := Z.of_nat (List.length download_speeds) in
                  let n' := Z.of_nat (List.length upload_speeds) in
                  inr (Some (SpeedTestSummary (count speedtest_data)
                               (count successful_tests)
                               (fdiv (sumF download_speeds) n)
                               (fdiv (sumF upload_speeds) n')
                               (minF download_speeds) (maxF download_speeds)))
              end
          end
      end
  end.

Definition opt_list {A} (o : option A) : list A :=
  match o with Some x => [x] | None => [] end.

(** [generate_report()] on the three series (connectivity, events, speed
    test): the sections written to the report file, and whether the report
    file is returned ([true]) or the outer [except] returned [None]
    ([false]). Each section is written after its values are computed. *)
Definition generate_report (connectivity events speedtest : csv_file)
    : list section * bool :=
  let w0 := [Header] in
  match connectivity_summary connectivity with
  | inl _ => (w0, false)
  | inr s1 =>
      let w1 := app w0 (opt_list s1) in
      match disconnection_summary events with
      | inl _ => (w1, false)
      | inr s2 =>
          let w2 := app w1 (opt_list s2) in
          match speedtest_summary speedtest with
          | inl _ => (w2, false)
          | inr s3 => (app w2 (opt_list s3), true)
          end
      end
  end.

(** [r['status'] == s] on a row that has the field. *)
Definition status_is (s : string) (r : dict_row) : bool :=
  match row_get r "status" with
  | inr (Some v) => String.eqb v s
  | _ => false
  end.




End Report.

(* ------------------------------------------------------------------ *)
(** * Verdict traces (for the state machine over many checks) *)

Module Trace.

(** The number of checks whose verdict is [true] right after a [false] one;
    [prev] is the verdict before the first check. *)
Fixpoint rises (prev : bool) (vs : list bool) : nat :=
  match vs with
  | [] => 0
  | v :: rest => (if v && negb prev then 1 else 0) + rises v rest
  end%nat.

(** The events of a run, without the checks that wrote none. *)
Fixpoint emitted (evs : list (option Conn.disconnect_event))
    : list Conn.disconnect_event :=
  match evs with
  | [] => []
  | Some e :: rest => e :: emitted rest
  | None :: rest => emitted rest
  end.

End Trace.

(* ------------------------------------------------------------------ *)
(** * The probe targets (__init__) *)

Module Ping.

Local Open Scope string_scope.

(** [self.ping_targets] and [self.http_targets] of [__init__]. *)
Definition default_ping_targets : list string :=
  ["8.8.8.8"; "1.1.1.1"; "208.67.222.222"].
Definition default_http_targets : list string :=
  ["https://www.google.com"; "https://www.cloudflare.com"; "https://httpbin.org/get"].

End Ping.

(* ------------------------------------------------------------------ *)
(** * Configuration and log upload (__init__, upload_logs, main) *)

Module Upload.
Import Speed.

Local Open Scope string_scope.

(** A [configparser.ConfigParser] as read: its sections in order, each with
    its options (names already lower-cased by [optionxform]); values hold no
    ['%'], so interpolation leaves them as they are. *)
Definition config := list (string * list (string * string)).

Fixpoint assoc {A} (k : string) (l : list (string * A)) : option A :=
  match l with
  | [] => None
  | (k', v) :: rest => if String.eqb k k' then Some v else assoc k rest
  end.

Inductive cfg_error :=
| NoSectionError (section : string)
| NoOptionError (option section : string).

(** [config.get(section, option)]: the option of the section, else of
    [DEFAULT]. *)
Definition cfg_get (cfg : config) (section option : string)
    : cfg_error + string :=
  match assoc section cfg with
  | None => inl (NoSectionError section)
  | Some opts =>
      match assoc option opts with
      | Some v => inr v
      | None =>
          match assoc "DEFAULT" cfg with
          | Some dflt =>
              match assoc option dflt with
              | Some v => inr v
              | None => inl (NoOptionError option section)
              end
          | None => inl (NoOptionError option section)
          end
      end
  end.

Definition cfg_error_exc (e : cfg_error) : pyexc :=
  match e with
  | NoSectionError s => Exception ("No section: '" ++ s ++ "'")
  | NoOptionError o s => Exception ("No option '" ++ o ++ "' in section: '" ++ s ++ "'")
  end.

Definition lower_ascii (c : Ascii.ascii) : Ascii.ascii :=
  let n := Ascii.nat_of_ascii c in
  if Nat.leb 65 n && Nat.leb n 90 then Ascii.ascii_of_nat (n + 32) else c.

Definition lower (s : string) : string :=
  string_of_list_ascii (map lower_ascii (list_ascii_of_string s)).

(** [RawConfigParser.BOOLEAN_STATES]. *)
Definition boolean_states : list (string * bool) :=
  [("1", true); ("yes", true); ("true", true); ("on", true);
   ("0", false); ("no", false); ("false", false); ("off", false)].

(** [config.getboolean(section, option, fallback=fallback)]: a missing
    section or option gives [fallback]; a value that is not a boolean state
    raises [ValueError]. *)
Definition getboolean (cfg : config) (section option : string) (fallback : bool)
    : pyexc + bool :=
  match cfg_get cfg section option with
  | inl _ => inr fallback
  | inr v =>
      match assoc (lower v) boolean_states with
      | Some b => inr b
      | None => inl (ValueError ("Not a boolean: " ++ v))
      end
  end.

(** The configuration [__init__] writes when the config file is missing. *)
Definition default_config : config :=
  [("VPS", [("enabled", "false"); ("hostname", "your-vps-hostname.com");
            ("username", "your-username"); ("key_file", "~/.ssh/id_rsa");
            ("remote_directory", "/opt/internet-monitor"); ("port", "22")]);
   ("MONITOR", [("location_name", "Home Network"); ("timezone", "UTC")])].

(** [__init__]: the file's configuration if it exists, else the default. *)
Definition init_config (file : option config) : config :=
  match file with
  | Some cfg => cfg
  | None => default_config
  end.




Definition lift {A} (r : cfg_error + A) : M A :=
  match r with
  | inl e => raise (cfg_error_exc e)
  | inr a => ret a
  end.

(** [subprocess.run(cmd, check=True, capture_output=True)]. *)
Definition run_checked (env : process_env) (cmd : list string) : M unit :=
  result <- subprocess_run env cmd ;;
  if Z.eqb (returncode result) 0 then ret tt
  else raise (Exception "CalledProcessError: non-zero exit status").

Definition csv_files : list string :=
  ["connectivity.csv"; "speedtest.csv"; "events.csv"].

Definition scp_cmd (key local dest : string) : list string :=
  ["scp"; "-i"; key; local; dest].

(** The [for csv_file in csv_files] loop; [local_path f] is
    [str(self.log_dir / f)], [exists] the file test. *)
Fixpoint upload_csvs (env : process_env) (local_path : string -> string)
    (exists_ : string -> bool) (key dest : string) (files : list string) : M unit :=
  match files with
  | [] => ret tt
  | f :: rest =>
      _ <- (if exists_ (local_path f)
            then run_checked env (scp_cmd key (local_path f) dest)
            else ret tt) ;;
      upload_csvs env local_path exists_ key dest rest
  end.

(** [max(report_files, key=lambda x: x.stat().st_mtime)]: the first file
    of greatest modification time. *)
Definition latest_report (r : string * Z) (rs : list (string * Z)) : string * Z :=
  fold_left (fun best x => if Z.ltb (snd best) (snd x) then x else best) rs r.

(** [upload_logs()]: [expanduser] is [Path.expanduser], [reports] the
    [report_*.txt] files with their modification times. *)
Definition upload_logs (cfg : config) (env : process_env)
    (expanduser : string -> string) (local_path : string -> string)
    (exists_ : string -> bool) (reports : list (string * Z)) : M unit :=
  match getboolean cfg "VPS" "enabled" false with
  | inl e => raise e
  | inr false => ret tt
  | inr true =>
      catch_all
        (hostname <- lift (cfg_get cfg "VPS" "hostname") ;;
         username <- lift (cfg_get cfg "VPS" "username") ;;
         key_raw <- lift (cfg_get cfg "VPS" "key_file") ;;
         remote_dir <- lift (cfg_get cfg "VPS" "remote_directory") ;;
         let key := expanduser key_raw in
         let host := username ++ "@" ++ hostname in
         let dest := host ++ ":" ++ remote_dir ++ "/" in
         _ <- run_checked env ["ssh"; "-i"; key; host; "mkdir -p " ++ remote_dir] ;;
         _ <- upload_csvs env local_path exists_ key dest csv_files ;;
         match reports with
         | [] => ret tt
         | r :: rs => run_checked env (scp_cmd key (fst (latest_report r rs)) dest)
         end)
        (fun _ => ret tt)
  end.




End Upload.

(* ------------------------------------------------------------------ *)
(** * The CSV series on disk (_init_csv_files and the appends) *)

Module Store.

Local Open Scope string_scope.

Definition connectivity_header : list string :=
  ["timestamp"; "status"; "target"; "response_time_ms"; "method"].
Definition speedtest_header : list string :=
  ["timestamp"; "download_mbps"; "upload_mbps"; "ping_ms"; "server"; "status"].
Definition events_header : list string :=
  ["timestamp"; "event_type"; "duration_seconds"; "details"].

(** The three series of the log directory. *)
Record log_files := mk_log_files {
  connectivity_csv : Report.csv_file;
  speedtest_csv : Report.csv_file;
  events_csv : Report.csv_file
}.

(** [if not path.exists(): write the header]. *)
Definition init_file (header : list string) (f : Report.csv_file) : Report.csv_file :=
  match f with
  | None => Some [header]
  | Some rows => Some rows
  end.

(** [_init_csv_files()]. *)
Definition init_csv_files (fs : log_files) : log_files :=
  mk_log_files (init_file connectivity_header (connectivity_csv fs))
               (init_file speedtest_header (speedtest_csv fs))
               (init_file events_header (events_csv fs)).

(** [open(path, 'a')] and [writer.writerow] for each row: a missing file is
    created, without a header. *)
Definition append_rows (f : Report.csv_file) (rows : list (list string))
    : Report.csv_file :=
  match f with
  | None => Some rows
  | Some old => Some (app old rows)
  end.

(** The fields [csv.writer] writes for a connectivity row; [show_ts] renders
    the ISO timestamp and [show_num] a response time, [None] is written as
    the empty field. *)
Definition render_conn_row (show_ts : Z -> string) (show_num : Q -> string)
    (r : Probe.conn_row) : list string :=
  [show_ts (Probe.row_timestamp r); Probe.row_status r; Probe.row_target r;
   match Probe.row_response_time_ms r with Some q => show_num q | None => "" end;
   Probe.row_method r].

(** The fields of an events.csv row [_handle_connection_state] writes:
    [disconnect_start.isoformat()], the event type, the duration and the
    details text, each through its rendering. *)
Definition render_event (show_ts : Z -> string) (show_dur : Z -> string)
    (show_details : Z * Z -> string) (e : Conn.disconnect_event) : list string :=
  [show_ts (Conn.ev_timestamp e); Conn.ev_type e; show_dur (Conn.ev_duration e);
   show_details (Conn.ev_details e)].

End Store.

(* ================================================================== *)
(** * Properties of the connection state machine *)

Module ConnFacts.
Import Conn.

(** A [false] verdict while DISCONNECTED leaves the state as it is and
    writes no event. *)
Lemma handle_false_disconnected (now : timestamp) (st : conn_state) :
  is_connected st = false -> handle_connection_state now false st = (st, None).
Proof. intros H. unfold handle_connection_state. rewrite H. reflexivity. Qed.

(** C1: starting CONNECTED, the verdicts [true, false, false, true] at
    t0 < t1 < t2 < t3 give exactly one disconnect event, written at the last
    check, with start t1 and duration t3 - t1; the second [false] (while
    DISCONNECTED) changes nothing. *)
Theorem outage_sequence_single_event (boot t0 t1 t2 t3 : timestamp)
    (Hord : t0 < t1 /\ t1 < t2 /\ t2 < t3) :
  let st1 := fst (handle_connection_state t1 false
                    (fst (handle_connection_state t0 true (init_state boot)))) in
  run_verdicts [(t0, true); (t1, false); (t2, false); (t3, true)]
    (init_state boot)
  = (mk_conn_state true None t3,
     [None; None; None;
      Some (mk_event t1 "disconnect"%string (t3 - t1) (t1, t3))])
  /\ handle_connection_state t2 false st1 = (st1, None)
  /\ disconnect_start st1 = Some t1.
Proof.
  cbv zeta. split; [| split]; reflexivity.
Qed.

(** C4: the initial state is CONNECTED with no disconnect start, and every
    transition preserves "disconnect_start is set iff not is_connected". *)
Theorem disconnect_start_invariant (boot : timestamp) :
  is_connected (init_state boot) = true /\
  disconnect_start (init_state boot) = None /\
  state_inv (init_state boot) /\
  (forall (now : timestamp) (connected : bool) (st : conn_state),
      state_inv st ->
      state_inv (fst (handle_connection_state now connected st))).
Proof.
  split; [reflexivity | split; [reflexivity | split]].
  - unfold state_inv; simpl; split; [congruence | discriminate].
  - intros now connected [ic ds lsp] Hinv; unfold state_inv in *; simpl in *.
    destruct connected, ic; simpl; split; try congruence; tauto.
Qed.

Lemma disconnect_start_invariant_witness :
  state_inv (mk_conn_state false (Some 5) 0) /\
  state_inv (fst (handle_connection_state 9 true (mk_conn_state false (Some 5) 0))).
Proof.
  assert (H : state_inv (mk_conn_state false (Some 5) 0)).
  { unfold state_inv; simpl; split; [reflexivity | discriminate]. }
  split; [exact H | apply (proj2 (proj2 (proj2 (disconnect_start_invariant 0)))); exact H].
Defined.

Lemma outage_sequence_single_event_witness :
  (1 < 2 /\ 2 < 3 /\ 3 < 4) /\
  run_verdicts [(1, true); (2, false); (3, false); (4, true)] (init_state 0)
  = (mk_conn_state true None 4,
     [None; None; None; Some (mk_event 2 "disconnect"%string 2 (2, 4))]).
Proof.
  split; [lia |].
  exact (proj1 (outage_sequence_single_event 0 1 2 3 4 ltac:(lia))).
Defined.

End ConnFacts.

(* ================================================================== *)
(** * Properties of the probes and the verdict *)

Module ProbeFacts.
Import Probe.

(** The counters of a probe loop: successes and probes added to the ones it
    starts from. *)
Lemma probe_loop_counts (probe : string -> bool * option Q) (method : string)
    (now : Z) (targets : list string) :
  forall results s t,
    let '(_, s', t') := probe_loop probe method now targets results s t in
    s' = s + count_true (map (fun x => fst (probe x)) targets) /\
    t' = t + Z.of_nat (List.length targets).
Proof.
  induction targets as [| x xs IH]; intros results s t; simpl.
  - unfold count_true; simpl; lia.
  - destruct (probe x) as [success rt] eqn:Hp; simpl.
    specialize (IH (results ++ [mk_conn_row now (if success then "connected"%string
                     else "disconnected"%string) x rt method])
                   (if success then s + 1 else s) (t + 1)).
    destruct (probe_loop _ _ _ _ _ _ _) as [[r' s'] t'].
    destruct IH as [-> ->].
    unfold count_true in *; destruct success; simpl; lia.
Qed.

Lemma count_true_app (l1 l2 : list bool) :
  count_true (l1 ++ l2) = count_true l1 + count_true l2.
Proof. unfold count_true; rewrite filter_app, length_app; lia. Qed.

(** C2: the verdict of [test_connectivity] is [true] exactly when the number
    of successful probes of the batch is greater than half the number of
    probes (strict, no rounding); 2 of 4 gives [false], 3 of 4 gives
    [true]. *)
Theorem verdict_strict_majority (ping http : string -> bool * option Q)
    (ping_targets http_targets : list string) (now : Z) (st : Conn.conn_state) :
  let b := batch ping http ping_targets http_targets in
  let '(connected, _, _, _) :=
      test_connectivity ping http ping_targets http_targets now st in
  (connected = true <->
   (inject_Z (Z.of_nat (List.length b)) * (1#2) < inject_Z (count_true b))%Q)
  /\ verdict 2 4 = false /\ verdict 3 4 = true.
Proof.
  cbv zeta. unfold test_connectivity.
  pose proof (probe_loop_counts ping "ping"%string now ping_targets [] 0 0) as H1.
  destruct (probe_loop ping _ now ping_targets [] 0 0) as [[r1 s1] t1].
  destruct H1 as [Hs1 Ht1].
  pose proof (probe_loop_counts http "http"%string now http_targets r1 s1 t1) as H2.
  destruct (probe_loop http _ now http_targets r1 s1 t1) as [[r2 s2] t2].
  destruct H2 as [Hs2 Ht2].
  destruct (Conn.handle_connection_state _ _ _) as [st' ev].
  split; [| split; reflexivity].
  unfold verdict, py_gt, batch.
  rewrite count_true_app, length_app, !length_map.
  replace s2 with (count_true (map (fun t => fst (ping t)) ping_targets) +
                   count_true (map (fun t => fst (http t)) http_targets)) by lia.
  replace t2 with (Z.of_nat (List.length ping_targets + List.length http_targets))
    by lia.
  split.
  - intros H. apply Qnot_le_lt. intros Hle.
    apply Qle_bool_iff in Hle. rewrite Hle in H. discriminate.
  - intros H. destruct (Qle_bool _ _) eqn:E; [| reflexivity].
    apply Qle_bool_iff in E. exfalso. apply (Qlt_not_le _ _ H E).
Qed.

(** C9: an HTTP probe issues one GET with timeout 5 and redirects not
    followed; it reports connected exactly when that GET returns a status in
    {200, 301, 302, 303, 307, 308}, with the measured time; otherwise
    (other status, request exception, other exception) it returns
    [(False, None)]. *)
Theorem http_probe_success_iff (get : http_request -> http_outcome)
    (t_start t_end : Q) (url : string) :
  let r := http_test get t_start t_end url in
  (fst r = true <->
   exists code, get (mk_http_request url 5 false) = HttpResponse code /\
                In code [200; 301; 302; 303; 307; 308])
  /\ snd r = (if fst r then Some ((t_end - t_start) * 1000)%Q else None).
Proof.
  cbv zeta. unfold http_test.
  destruct (get (mk_http_request url 5 false)) as [code | m | m] eqn:Hg.
  - destruct (existsb (Z.eqb code) ok_status_codes) eqn:E; simpl.
    + split; [| reflexivity]. split; [intros _ | reflexivity].
      exists code; split; [reflexivity |].
      apply existsb_exists in E. destruct E as [c [Hin Hc]].
      apply Z.eqb_eq in Hc. subst c. exact Hin.
    + split; [| reflexivity]. split; [discriminate |].
      intros [c [Hc Hin]]. injection Hc as Hc. subst c.
      assert (Hex : existsb (Z.eqb code) ok_status_codes = true).
      { apply existsb_exists. exists code. split; [exact Hin | apply Z.eqb_refl]. }
      congruence.
  - simpl. split; [| reflexivity]. split; [discriminate |].
    intros [c [Hc _]]. discriminate.
  - simpl. split; [| reflexivity]. split; [discriminate |].
    intros [c [Hc _]]. discriminate.
Qed.

End ProbeFacts.

(* ================================================================== *)
(** * Properties of the speed-test runner *)

Module SpeedFacts.
Import Speed.

Local Open Scope string_scope.


Create HintDb rows.

Lemma keeps_ret {A} (a : A) : keeps_rows (ret a).
Proof. intros st; reflexivity. Qed.

Lemma keeps_raise {A} (e : pyexc) : keeps_rows (@raise A e).
Proof. intros st; reflexivity. Qed.

Lemma keeps_bind {A B} (m : M A) (k : A -> M B) :
  keeps_rows m -> (forall a, keeps_rows (k a)) -> keeps_rows (bind m k).
Proof.
  intros Hm Hk st. unfold bind. specialize (Hm st).
  destruct (m st) as [[e | a] st'] eqn:E; simpl in *; [exact Hm |].
  rewrite Hk. exact Hm.
Qed.

Lemma keeps_catch_all {A} (m : M A) (h : pyexc -> M A) :
  keeps_rows m -> (forall e, keeps_rows (h e)) -> keeps_rows (catch_all m h).
Proof.
  intros Hm Hh st. unfold catch_all. specialize (Hm st).
  destruct (m st) as [[e | a] st'] eqn:E; simpl in *; [| exact Hm].
  rewrite Hh. exact Hm.
Qed.

Lemma keeps_catch_fnf {A} (m h : M A) :
  keeps_rows m -> keeps_rows h -> keeps_rows (catch_fnf m h).
Proof.
  intros Hm Hh. apply keeps_catch_all; [exact Hm |].
  intros []; auto using keeps_raise.
Qed.

Lemma keeps_subprocess_run env cmd : keeps_rows (subprocess_run env cmd).
Proof. intros st. unfold subprocess_run. destruct (env cmd); reflexivity. Qed.

Lemma keeps_json_loads r : keeps_rows (json_loads r).
Proof. intros st. unfold json_loads. destruct (stdout_json r); reflexivity. Qed.

Lemma keeps_py_get d k v : keeps_rows (py_get d k v).
Proof. intros st. destruct d; reflexivity. Qed.

Lemma keeps_py_index d k : keeps_rows (py_index d k).
Proof.
  intros st. destruct d; try reflexivity. simpl. destruct (dict_lookup k kvs); reflexivity.
Qed.

Lemma keeps_div_mega x : keeps_rows (div_mega x).
Proof. intros st. destruct x; reflexivity. Qed.

Lemma keeps_format_1f x : keeps_rows (format_1f x).
Proof. intros st. destruct x; reflexivity. Qed.

#[local] Hint Resolve keeps_ret keeps_raise keeps_bind keeps_catch_all
  keeps_catch_fnf keeps_subprocess_run keeps_json_loads keeps_py_get
  keeps_py_index keeps_div_mega keeps_format_1f : rows.

Lemma keeps_parse_primary data : keeps_rows (parse_primary data).
Proof. unfold parse_primary. repeat (apply keeps_bind; [auto with rows | intro]); auto with rows. Qed.

Lemma keeps_parse_fallback data : keeps_rows (parse_fallback data).
Proof. unfold parse_fallback. repeat (apply keeps_bind; [auto with rows | intro]); auto with rows. Qed.

#[local] Hint Resolve keeps_parse_primary keeps_parse_fallback : rows.

Lemma keeps_run_fallback env msg : keeps_rows (run_fallback env msg).
Proof.
  unfold run_fallback. apply keeps_bind; [auto with rows | intro r].
  destruct (Z.eqb _ _); auto with rows.
Qed.

#[local] Hint Resolve keeps_run_fallback : rows.

Lemma keeps_measure env : keeps_rows (measure env).
Proof.
  unfold measure. apply keeps_catch_fnf; [| auto with rows].
  apply keeps_bind; [auto with rows | intro r]. destruct (Z.eqb _ _); auto with rows.
Qed.


Lemma run_fallback_raises env msg st :
  fallback_fails env -> exists e, fst (run_fallback env msg st) = inl e.
Proof.
  intros [[e He] | [[c [Hc Hrc]] | [[c [Hc [Hrc Hj]]] | [c [j [e [Hc [Hrc [Hj Hp]]]]]]]]];
    unfold run_fallback, bind, subprocess_run; simpl.
  - rewrite He. simpl. eauto.
  - rewrite Hc. apply Z.eqb_neq in Hrc. rewrite Hrc. simpl. eauto.
  - rewrite Hc, Hrc. simpl. unfold json_loads. rewrite Hj. simpl. eauto.
  - rewrite Hc, Hrc. simpl. unfold json_loads. rewrite Hj. simpl.
    exists e. specialize (Hp {| invoked := invoked st ++ [fallback_cmd];
                               speed_rows := speed_rows st |}).
    destruct (parse_fallback j _) as [r st']. simpl in *. exact Hp.
Qed.

Lemma measure_raises env st :
  primary_fails env -> fallback_fails env -> exists e, fst (measure env st) = inl e.
Proof.
  intros Hp Hf. unfold measure, catch_fnf, catch_all, bind, subprocess_run.
  destruct Hp as [[f Hf0] | [c [Hc Hrc]]].
  - rewrite Hf0. apply run_fallback_raises. exact Hf.
  - rewrite Hc. apply Z.eqb_neq in Hrc. rewrite Hrc. simpl.
    set (st1 := {| invoked := _; speed_rows := _ |}).
    destruct (run_fallback_raises env both_failed_msg st1 Hf) as [e He].
    destruct (run_fallback env both_failed_msg st1) as [[e' | a] st2]; simpl in He;
      [| discriminate].
    injection He as ->. destruct e; simpl; eauto.
    apply run_fallback_raises. exact Hf.
Qed.

(** C5: every run of [run_speedtest] returns normally and appends exactly one
    row to speedtest.csv, a success row or a [failed: <reason>] row; when the
    primary tool is absent or exits non-zero and the fallback fails too, the
    row is a failed row. *)
Theorem speedtest_one_record (env : process_env) (now : Z) (st : speed_state) :
  let '(r, st') := run_speedtest env now st in
  (exists row,
     speed_rows st' = app (speed_rows st) [row] /\
     ((r = inr true /\ sr_status row = "success") \/
      (r = inr false /\ exists e, row = failed_row now e)))
  /\ (primary_fails env -> fallback_fails env ->
      r = inr false /\
      exists e, speed_rows st' = app (speed_rows st) [failed_row now e]).
Proof.
  unfold run_speedtest, catch_all, bind.
  pose proof (keeps_measure env st) as Hk.
  destruct (measure env st) as [[e | m] st1] eqn:Em; simpl in Hk.
  - split.
    + exists (failed_row now e). simpl. rewrite Hk. split; [reflexivity |].
      right. eauto.
    + intros _ _. simpl. rewrite Hk. eauto.
  - destruct m as [[[dl ul] pm] srv].
    pose proof (keeps_format_1f pm st1) as Hf.
    assert (Hno : primary_fails env -> fallback_fails env -> False).
    { intros Hp Hfb. destruct (measure_raises env st Hp Hfb) as [e He].
      rewrite Em in He. discriminate. }
    destruct (format_1f pm st1) as [[e | []] st2] eqn:Ef; simpl in Hf |- *.
    + split; [| intros Hp Hfb; exfalso; exact (Hno Hp Hfb)].
      exists (failed_row now e). rewrite Hf, Hk. split; [reflexivity |]. right; eauto.
    + split; [| intros Hp Hfb; exfalso; exact (Hno Hp Hfb)].
      eexists. rewrite Hf, Hk. split; [reflexivity |]. left; split; reflexivity.
Qed.

Lemma speedtest_one_record_witness :
  let env : process_env := fun _ => inl (FileNotFoundError "speedtest") in
  primary_fails env /\ fallback_fails env /\
  fst (run_speedtest env 7 (mk_speed_state [] [])) = inr false.
Proof.
  cbv zeta.
  assert (Hp : primary_fails (fun _ => inl (FileNotFoundError "speedtest"))).
  { left. eexists. reflexivity. }
  assert (Hf : fallback_fails (fun _ => inl (FileNotFoundError "speedtest"))).
  { left. eexists. reflexivity. }
  split; [exact Hp | split; [exact Hf |]].
  pose proof (speedtest_one_record (fun _ => inl (FileNotFoundError "speedtest")) 7
                (mk_speed_state [] [])) as H.
  destruct (run_speedtest _ 7 _) as [r st'].
  exact (proj1 ((proj2 H) Hp Hf)).
Defined.

(** C6: when the primary tool is absent or exits non-zero and the fallback
    exits zero with output of its schema, the run returns normally and
    appends one success row holding the fallback's values. *)
Theorem fallback_success_recorded (env : process_env) (now : Z) (st : speed_state)
    (c : completed) (kvs skv : list (string * json)) (d u p : Q) (sponsor name : json) :
  primary_fails env ->
  env fallback_cmd = inr c -> returncode c = 0 -> stdout_json c = Some (JObj kvs) ->
  dict_lookup "download" kvs = Some (JNum d) ->
  dict_lookup "upload" kvs = Some (JNum u) ->
  dict_lookup "ping" kvs = Some (JNum p) ->
  dict_lookup "server" kvs = Some (JObj skv) ->
  dict_lookup "sponsor" skv = Some sponsor ->
  dict_lookup "name" skv = Some name ->
  let '(r, st') := run_speedtest env now st in
  r = inr true /\
  speed_rows st' = app (speed_rows st)
    [mk_speed_row now (Some (d / 1000000)%Q) (Some (u / 1000000)%Q)
       (Some (JNum p)) (Some (sponsor, name)) "success"].
Proof.
  intros Hp Hc Hrc Hj Hd Hu Hpi Hs Hsp Hn.
  assert (Hfb : forall msg st0, run_fallback env msg st0 =
            (inr ((d / 1000000)%Q, (u / 1000000)%Q, JNum p, (sponsor, name)),
             mk_speed_state (app (invoked st0) [fallback_cmd]) (speed_rows st0))).
  { intros msg st0. unfold run_fallback, bind, subprocess_run.
    rewrite Hc. simpl. rewrite Hrc. simpl. unfold json_loads. rewrite Hj. simpl.
    unfold parse_fallback, bind. simpl.
    rewrite Hd. simpl. rewrite Hu. simpl. rewrite Hpi. simpl. rewrite Hs. simpl.
    rewrite Hsp. simpl. rewrite Hn. reflexivity. }
  unfold run_speedtest, catch_all at 1, bind at 1.
  assert (Hm : exists st1, measure env st =
            (inr ((d / 1000000)%Q, (u / 1000000)%Q, JNum p, (sponsor, name)), st1)
            /\ speed_rows st1 = speed_rows st).
  { unfold measure, catch_fnf, catch_all, bind at 1, subprocess_run.
    destruct Hp as [[f Hf] | [c0 [Hc0 Hrc0]]].
    - rewrite Hf. rewrite Hfb. eexists. split; reflexivity.
    - rewrite Hc0. apply Z.eqb_neq in Hrc0. rewrite Hrc0. rewrite Hfb.
      eexists. split; reflexivity. }
  destruct Hm as [st1 [-> Hrows]]. simpl.
  rewrite Hrows. split; reflexivity.
Qed.

Lemma fallback_success_recorded_witness :
  let out := JObj [("download", JNum 80000000); ("upload", JNum 20000000);
                   ("ping", JNum 12);
                   ("server", JObj [("sponsor", JStr "ISP"); ("name", JStr "Town")])] in
  let env : process_env := fun cmd =>
      if list_eq_dec string_dec cmd primary_cmd
      then inl (FileNotFoundError "speedtest")
      else inr (mk_completed 0 (Some out)) in
  let '(r, st') := run_speedtest env 1 (mk_speed_state [] []) in
  r = inr true /\
  speed_rows st' = app []
    [mk_speed_row 1 (Some (80000000 / 1000000)%Q) (Some (20000000 / 1000000)%Q)
       (Some (JNum 12)) (Some (JStr "ISP", JStr "Town")) "success"].
Proof.
  cbv zeta.
  apply (fallback_success_recorded _ 1 (mk_speed_state [] [])
           (mk_completed 0 (Some (JObj [("download", JNum 80000000);
              ("upload", JNum 20000000); ("ping", JNum 12);
              ("server", JObj [("sponsor", JStr "ISP"); ("name", JStr "Town")])])))
           [("download", JNum 80000000);
              ("upload", JNum 20000000); ("ping", JNum 12);
              ("server", JObj [("sponsor", JStr "ISP"); ("name", JStr "Town")])]
           [("sponsor", JStr "ISP"); ("name", JStr "Town")]);
    try reflexivity.
  left. eexists. reflexivity.
Defined.

(** C8: the recorded speeds are the raw bandwidths divided by exactly
    1,000,000, whatever the raw values: through the primary (Ookla) schema,
    where the figures are [download.bandwidth] and [upload.bandwidth], and
    through the fallback (speedtest-cli) schema, where they are [download]
    and [upload]. In particular a raw bandwidth of 500,000,000 is recorded
    as 500 Mbps by either tool. *)
Theorem bandwidth_normalisation :
  (forall (env : process_env) (now : Z) (st : speed_state) (c : completed)
          (kvs dk uk : list (string * json)) (d u : Q),
     env primary_cmd = inr c -> returncode c = 0 -> stdout_json c = Some (JObj kvs) ->
     dict_lookup "download" kvs = Some (JObj dk) ->
     dict_lookup "bandwidth" dk = Some (JNum d) ->
     dict_lookup "upload" kvs = Some (JObj uk) ->
     dict_lookup "bandwidth" uk = Some (JNum u) ->
     latency_field_ok (dict_lookup "ping" kvs) ->
     server_field_ok (dict_lookup "server" kvs) ->
     exists pm srv,
       run_speedtest env now st =
         (inr true, mk_speed_state (app (invoked st) [primary_cmd])
            (app (speed_rows st)
               [mk_speed_row now (Some (d / 1000000)%Q) (Some (u / 1000000)%Q)
                  (Some pm) (Some srv) "success"]))) /\
  (forall (env : process_env) (now : Z) (st : speed_state) (c : completed)
          (kvs skv : list (string * json)) (d u p : Q) (sponsor name : json),
     primary_fails env ->
     env fallback_cmd = inr c -> returncode c = 0 -> stdout_json c = Some (JObj kvs) ->
     dict_lookup "download" kvs = Some (JNum d) ->
     dict_lookup "upload" kvs = Some (JNum u) ->
     dict_lookup "ping" kvs = Some (JNum p) ->
     dict_lookup "server" kvs = Some (JObj skv) ->
     dict_lookup "sponsor" skv = Some sponsor ->
     dict_lookup "name" skv = Some name ->
     exists st',
       run_speedtest env now st = (inr true, st') /\
       speed_rows st' = app (speed_rows st)
         [mk_speed_row now (Some (d / 1000000)%Q) (Some (u / 1000000)%Q)
            (Some (JNum p)) (Some (sponsor, name)) "success"]) /\
  (let out := JObj [("download", JObj [("bandwidth", JNum 500000000)]);
                    ("upload", JObj [("bandwidth", JNum 500000000)]);
                    ("ping", JObj [("latency", JNum 10)])] in
   let env : process_env := fun _ => inr (mk_completed 0 (Some out)) in
   exists q, speed_rows (snd (run_speedtest env 0 (mk_speed_state [] []))) =
     [mk_speed_row 0 (Some q) (Some q) (Some (JNum 10))
        (Some (JStr "Unknown", JStr "")) "success"] /\ (q == 500)%Q) /\
  (let out := JObj [("download", JNum 500000000); ("upload", JNum 500000000);
                    ("ping", JNum 10);
                    ("server", JObj [("sponsor", JStr "ISP"); ("name", JStr "Town")])] in
   let env : process_env := fun cmd =>
       if list_eq_dec string_dec cmd primary_cmd
       then inr (mk_completed 1 None)
       else inr (mk_completed 0 (Some out)) in
   exists q, speed_rows (snd (run_speedtest env 0 (mk_speed_state [] []))) =
     [mk_speed_row 0 (Some q) (Some q) (Some (JNum 10))
        (Some (JStr "ISP", JStr "Town")) "success"] /\ (q == 500)%Q).
Proof.
  split; [| split; [| split]].
  - intros env now st c kvs dk uk d u Hc Hrc Hj Hd Hbd Hu Hbu Hp Hs.
    unfold latency_field_ok, server_field_ok in *.
    destruct (dict_lookup "ping" kvs) as [[| | | | | p] |] eqn:Ep; try contradiction;
    try (destruct (dict_lookup "latency" p) as [[| | q3 | | |] |] eqn:Elp; try contradiction);
    destruct (dict_lookup "server" kvs) as [[| | | | | sv] |] eqn:Es; try contradiction;
    unfold run_speedtest, measure, parse_primary, catch_fnf, catch_all, bind,
      subprocess_run, json_loads, py_get, div_mega, format_1f, append_row, ret;
    rewrite Hc; simpl; rewrite Hrc; simpl; rewrite Hj;
    repeat (simpl; match goal with H : dict_lookup _ _ = _ |- _ => rewrite H end);
    simpl; do 2 eexists; reflexivity.
  - intros env now st c kvs skv d u p sponsor name Hp Hc Hrc Hj Hd Hu Hpi Hs Hsp Hn.
    assert (Hfb : forall msg st0, run_fallback env msg st0 =
              (inr ((d / 1000000)%Q, (u / 1000000)%Q, JNum p, (sponsor, name)),
               mk_speed_state (app (invoked st0) [fallback_cmd]) (speed_rows st0))).
    { intros msg st0. unfold run_fallback, bind, subprocess_run.
      rewrite Hc. simpl. rewrite Hrc. simpl. unfold json_loads. rewrite Hj. simpl.
      unfold parse_fallback, bind. simpl.
      rewrite Hd. simpl. rewrite Hu. simpl. rewrite Hpi. simpl. rewrite Hs. simpl.
      rewrite Hsp. simpl. rewrite Hn. reflexivity. }
    unfold run_speedtest, catch_all at 1, bind at 1.
    assert (Hm : exists st1, measure env st =
              (inr ((d / 1000000)%Q, (u / 1000000)%Q, JNum p, (sponsor, name)), st1)
              /\ speed_rows st1 = speed_rows st).
    { unfold measure, catch_fnf, catch_all, bind at 1, subprocess_run.
      destruct Hp as [[f Hf] | [c0 [Hc0 Hrc0]]].
      - rewrite Hf. rewrite Hfb. eexists. split; reflexivity.
      - rewrite Hc0. apply Z.eqb_neq in Hrc0. rewrite Hrc0. rewrite Hfb.
        eexists. split; reflexivity. }
    destruct Hm as [st1 [-> Hrows]]. simpl.
    eexists. split; [reflexivity |]. simpl. rewrite Hrows. reflexivity.
  - cbv zeta; eexists; split; [vm_compute; reflexivity | reflexivity].
  - cbv zeta; eexists; split; [vm_compute; reflexivity | reflexivity].
Qed.

Lemma bandwidth_normalisation_witness :
  exists pm srv,
    run_speedtest (fun _ => inr (mk_completed 0 (Some (JObj
        [("download", JObj [("bandwidth", JNum 123456789)]);
         ("upload", JObj [("bandwidth", JNum 9876543)])])))) 5 (mk_speed_state [] []) =
      (inr true, mk_speed_state (app [] [primary_cmd])
         (app [] [mk_speed_row 5 (Some (123456789 / 1000000)%Q)
                    (Some (9876543 / 1000000)%Q) (Some pm) (Some srv) "success"])).
Proof.
  apply (proj1 bandwidth_normalisation
    (fun _ => inr (mk_completed 0 (Some (JObj
        [("download", JObj [("bandwidth", JNum 123456789)]);
         ("upload", JObj [("bandwidth", JNum 9876543)])])))) 5 (mk_speed_state [] [])
    (mk_completed 0 (Some (JObj
        [("download", JObj [("bandwidth", JNum 123456789)]);
         ("upload", JObj [("bandwidth", JNum 9876543)])])))
    [("download", JObj [("bandwidth", JNum 123456789)]);
     ("upload", JObj [("bandwidth", JNum 9876543)])]
    [("bandwidth", JNum 123456789)] [("bandwidth", JNum 9876543)]);
    try reflexivity; vm_compute; exact I.
Defined.

(** C10: when the primary tool exits zero with a JSON object in which some of
    the download, upload, ping and server fields are missing (the others
    being of the Ookla shape), one success row is appended, a missing
    bandwidth reads 0 Mbps, a missing latency 0 and a missing server the
    label 'Unknown'; the fallback tool is not started. *)
Theorem primary_missing_fields_default (env : process_env) (now : Z)
    (st : speed_state) (c : completed) (kvs : list (string * json)) :
  env primary_cmd = inr c -> returncode c = 0 -> stdout_json c = Some (JObj kvs) ->
  bandwidth_field_ok (dict_lookup "download" kvs) ->
  bandwidth_field_ok (dict_lookup "upload" kvs) ->
  latency_field_ok (dict_lookup "ping" kvs) ->
  server_field_ok (dict_lookup "server" kvs) ->
  let '(r, st') := run_speedtest env now st in
  r = inr true /\ invoked st' = app (invoked st) [primary_cmd] /\
  exists dl ul pm srv,
    speed_rows st' = app (speed_rows st)
      [mk_speed_row now (Some dl) (Some ul) (Some pm) (Some srv) "success"] /\
    (dict_lookup "download" kvs = None -> dl == 0)%Q /\
    (dict_lookup "upload" kvs = None -> ul == 0)%Q /\
    (dict_lookup "ping" kvs = None -> pm = JNum 0) /\
    (dict_lookup "server" kvs = None -> srv = (JStr "Unknown", JStr "")).
Proof.
  intros Hc Hrc Hj Hd Hu Hp Hs.
  unfold bandwidth_field_ok, latency_field_ok, server_field_ok in *.
  destruct (dict_lookup "download" kvs) as [[| | | | | d] |] eqn:Ed; try contradiction;
  [destruct (dict_lookup "bandwidth" d) as [[| | q1 | | |] |] eqn:Ebd; try contradiction |];
  destruct (dict_lookup "upload" kvs) as [[| | | | | u] |] eqn:Eu; try contradiction;
  try (destruct (dict_lookup "bandwidth" u) as [[| | q2 | | |] |] eqn:Ebu; try contradiction);
  destruct (dict_lookup "ping" kvs) as [[| | | | | p] |] eqn:Ep; try contradiction;
  try (destruct (dict_lookup "latency" p) as [[| | q3 | | |] |] eqn:Elp; try contradiction);
  destruct (dict_lookup "server" kvs) as [[| | | | | sv] |] eqn:Es; try contradiction;
  unfold run_speedtest, measure, parse_primary, catch_fnf, catch_all, bind,
    subprocess_run, json_loads, py_get, div_mega, format_1f, append_row, ret;
  rewrite Hc; simpl; rewrite Hrc; simpl; rewrite Hj;
  repeat (simpl; match goal with H : dict_lookup _ _ = _ |- _ => rewrite H end);
  simpl; (split; [reflexivity | split; [reflexivity |]]);
  do 4 eexists; (split; [reflexivity |]);
  repeat split; intros Hnone; try discriminate Hnone; reflexivity.
Qed.

Lemma primary_missing_fields_default_witness :
  let env : process_env := fun _ => inr (mk_completed 0 (Some (JObj []))) in
  let '(r, st') := run_speedtest env 3 (mk_speed_state [] []) in
  r = inr true /\ invoked st' = app [] [primary_cmd].
Proof.
  cbv zeta.
  pose proof (primary_missing_fields_default
                (fun _ => inr (mk_completed 0 (Some (JObj [])))) 3
                (mk_speed_state [] []) (mk_completed 0 (Some (JObj []))) []
                eq_refl eq_refl eq_refl I I I I) as H.
  destruct (run_speedtest _ 3 _) as [r st'].
  destruct H as [H1 [H2 _]]. split; [exact H1 | exact H2].
Defined.

End SpeedFacts.

(* ================================================================== *)
(** * Properties of the report *)

Module ReportFacts.
Import Report.

Local Open Scope string_scope.

(** A field of the header is found in every DictReader row. *)
Lemma row_get_header (header row : list string) (k : string) :
  In k header -> exists v, row_get (make_dict header row) k = inr v.
Proof.
  revert row. induction header as [| k' ks IH]; intros row Hin; [destruct Hin |].
  assert (Hstep : forall v, exists w,
             row_get ((k', v) :: make_dict ks (tl row)) k = inr w).
  { intros v. simpl. destruct (row_get (make_dict ks (tl row)) k) as [e | w] eqn:E.
    - destruct Hin as [-> | Hin].
      + rewrite String.eqb_refl. eauto.
      + destruct (IH (tl row) Hin) as [w Hw]. congruence.
    - eauto. }
  destruct row as [| v vs]; simpl; [exact (Hstep None) | exact (Hstep (Some v))].
Qed.

Lemma dict_reader_rows (header : list string) (data : list (list string)) (r : dict_row) :
  In r (dict_reader (header :: data)) -> exists row, r = make_dict header row.
Proof.
  simpl. intros Hin. apply in_map_iff in Hin. destruct Hin as [row [<- _]]. eauto.
Qed.

(** A comprehension whose condition never raises is a plain filter. *)
Lemma filter_exc_total {A} (p : A -> pyexc + bool) (f : A -> bool) (l : list A) :
  (forall x, In x l -> p x = inr (f x)) -> filter_exc p l = inr (filter f l).
Proof.
  induction l as [| x xs IH]; intros H; [reflexivity |].
  simpl. rewrite (H x (or_introl eq_refl)).
  rewrite IH by (intros y Hy; apply H; right; exact Hy).
  reflexivity.
Qed.


(** C7: for a connectivity series with a [status] column, the summary
    counts the rows and the [disconnected] rows, and its success rate is
    (total - failed) / total * 100 when there are rows (100 when none
    failed, 70 for 3 failures in 10 rows) and 0 when there are none. *)
Theorem success_rate_pct (header : list string) (data : list (list string))
    (Hh : In "status" header) :
  let rows := dict_reader (header :: data) in
  let total := count rows in
  let failed := count (filter (status_is "disconnected") rows) in
  exists rate,
    connectivity_summary (Some (header :: data)) =
      inr (Some (ConnectivitySummary total failed rate)) /\
    (0 < total -> (rate == (inject_Z (total - failed) / inject_Z total) * 100)%Q) /\
    (total = 0 -> rate = 0%Q) /\
    (0 < total -> failed = 0 -> (rate == 100)%Q) /\
    (total = 10 -> failed = 3 -> (rate == 70)%Q).
Proof.
  cbv zeta. unfold connectivity_summary.
  rewrite (filter_exc_total _ (status_is "disconnected")).
  2:{ intros r Hr. destruct (dict_reader_rows _ _ _ Hr) as [row ->].
      unfold field_is, status_is.
      destruct (row_get_header header row "status" Hh) as [v ->]. reflexivity. }
  set (t := count (dict_reader (header :: data))).
  set (f := count (filter (status_is "disconnected") (dict_reader (header :: data)))).
  eexists. split; [reflexivity |].
  split; [| split; [| split]].
  - intros Ht. apply Z.ltb_lt in Ht. rewrite Ht. reflexivity.
  - intros Ht. rewrite Ht. reflexivity.
  - intros Ht Hf. pose proof Ht as Ht'. apply Z.ltb_lt in Ht'. rewrite Ht', Hf.
    rewrite Z.sub_0_r. field. unfold Qeq; simpl; lia.
  - intros Ht Hf. rewrite Ht, Hf. reflexivity.
Qed.

Lemma success_rate_pct_witness :
  In "status" ["timestamp"; "status"] /\
  exists rate,
    connectivity_summary (Some [["timestamp"; "status"];
        ["1"; "connected"]; ["2"; "connected"]; ["3"; "disconnected"];
        ["4"; "connected"]; ["5"; "disconnected"]; ["6"; "connected"];
        ["7"; "connected"]; ["8"; "disconnected"]; ["9"; "connected"];
        ["10"; "connected"]]) =
      inr (Some (ConnectivitySummary 10 3 rate)) /\ (rate == 70)%Q.
Proof.
  assert (Hin : In "status" ["timestamp"; "status"]) by (right; left; reflexivity).
  split; [exact Hin |].
  destruct (success_rate_pct ["timestamp"; "status"]
    [["1"; "connected"]; ["2"; "connected"]; ["3"; "disconnected"];
     ["4"; "connected"]; ["5"; "disconnected"]; ["6"; "connected"];
     ["7"; "connected"]; ["8"; "disconnected"]; ["9"; "connected"];
     ["10"; "connected"]] Hin) as [rate [Hs [_ [_ [_ H70]]]]].
  exists rate. split; [exact Hs | apply H70; reflexivity].
Defined.













End ReportFacts.

(* ================================================================== *)
(** * The state machine over many checks *)

Module TraceFacts.
Import Conn Trace.

Local Open Scope string_scope.

Lemma handle_is_connected (now : timestamp) (v : bool) (st : conn_state) :
  is_connected (fst (handle_connection_state now v st)) = v.
Proof. destruct v, st as [[] ds l]; reflexivity. Qed.

Lemma handle_keeps_inv (now : timestamp) (v : bool) (st : conn_state) :
  state_inv st -> state_inv (fst (handle_connection_state now v st)).
Proof.
  destruct st as [ic ds l]; unfold state_inv; simpl.
  destruct v, ic; simpl; intros H; split; try congruence; tauto.
Qed.

Lemma last_cons_default {A} (x : A) (l : list A) (d : A) :
  last (x :: l) d = last l x.
Proof.
  revert x d. induction l as [| y l IH]; intros x d; [reflexivity |].
  change (last (y :: l) d = last (y :: l) x). rewrite (IH y d), (IH y x). reflexivity.
Qed.

(** Checks that all pass while CONNECTED write no event and only move
    [last_successful_ping] to the time of the last check. *)
Theorem connected_checks_quiet (ts : list timestamp) (st : conn_state) :
  is_connected st = true ->
  run_verdicts (map (fun t => (t, true)) ts) st =
    (mk_conn_state true (disconnect_start st) (last ts (last_successful_ping st)),
     repeat None (List.length ts)).
Proof.
  revert st. induction ts as [| t ts IH]; intros [ic ds l] Hc; simpl in Hc; subst ic;
    [reflexivity |].
  simpl. rewrite (IH (mk_conn_state true ds t) eq_refl). simpl.
  destruct ts as [| y ts]; [reflexivity |].
  rewrite !last_cons_default. reflexivity.
Qed.

Lemma connected_checks_quiet_witness :
  run_verdicts [(5, true); (9, true)] (init_state 1) =
    (mk_conn_state true None 9, [None; None]).
Proof. exact (connected_checks_quiet [5; 9] (init_state 1) eq_refl). Defined.

Lemma emitted_count_from (inputs : list (timestamp * bool)) :
  forall st, state_inv st ->
  List.length (emitted (snd (run_verdicts inputs st))) =
    rises (is_connected st) (map snd inputs).
Proof.
  induction inputs as [| [now v] rest IH]; intros st Hinv; [reflexivity |].
  simpl.
  pose proof (handle_keeps_inv now v st Hinv) as Hinv'.
  pose proof (handle_is_connected now v st) as Hic.
  destruct (handle_connection_state now v st) as [st1 ev] eqn:E.
  simpl in Hinv', Hic.
  pose proof (IH st1 Hinv') as IH1. rewrite Hic in IH1.
  destruct (run_verdicts rest st1) as [st2 evs] eqn:E2. simpl in *.
  destruct st as [ic ds l]. unfold state_inv in Hinv. simpl in Hinv.
  unfold handle_connection_state in E. simpl in E.
  destruct v, ic; simpl in E; injection E as <- <-; simpl; try exact IH1.
  destruct ds as [s |]; [| destruct Hinv as [_ H]; exfalso; apply (H eq_refl); reflexivity].
  simpl. rewrite IH1. reflexivity.
Qed.

(** Starting from the initial state, the number of disconnect events is the
    number of checks that pass right after a failed one. *)
Theorem events_count_recoveries (boot : timestamp) (inputs : list (timestamp * bool)) :
  List.length (emitted (snd (run_verdicts inputs (init_state boot)))) =
    rises true (map snd inputs).
Proof.
  apply emitted_count_from. unfold state_inv; simpl; split; [congruence | discriminate].
Qed.

Lemma events_well_formed_from (inputs : list (timestamp * bool)) :
  forall st,
  (forall s, disconnect_start st = Some s -> Forall (fun t => s < t) (map fst inputs)) ->
  Sorted.StronglySorted Z.lt (map fst inputs) ->
  Forall (fun e => 0 < ev_duration e /\ ev_type e = "disconnect" /\
                   ev_details e = (ev_timestamp e, ev_timestamp e + ev_duration e))
    (emitted (snd (run_verdicts inputs st))).
Proof.
  induction inputs as [| [now v] rest IH]; intros st Hds Hsort; [constructor |].
  simpl in Hsort. apply Sorted.StronglySorted_inv in Hsort as [Hsort Hhd].
  simpl.
  destruct (handle_connection_state now v st) as [st1 ev] eqn:E.
  assert (Hds1 : forall s, disconnect_start st1 = Some s ->
                 Forall (fun t => s < t) (map fst rest)).
  { destruct st as [ic ds l]. unfold handle_connection_state in E. simpl in *.
    destruct v, ic; simpl in E; injection E as <- _; simpl; intros s Hs;
      try discriminate.
    - specialize (Hds s Hs). inversion Hds; assumption.
    - injection Hs as <-. exact Hhd.
    - specialize (Hds s Hs). inversion Hds; assumption. }
  pose proof (IH st1 Hds1 Hsort) as IH1.
  destruct (run_verdicts rest st1) as [st2 evs]. simpl in *.
  destruct ev as [e |]; [| exact IH1].
  constructor; [| exact IH1].
  destruct st as [ic ds l]. unfold handle_connection_state in E. simpl in *.
  destruct v, ic; simpl in E; try discriminate.
  destruct ds as [s |]; [| discriminate].
  injection E as _ <-. simpl.
  specialize (Hds s eq_refl). inversion Hds; subst.
  split; [lia | split; [reflexivity | f_equal; lia]].
Qed.

(** With strictly increasing check times, every disconnect event has a
    positive duration, the type [disconnect], and details running from its
    start to start + duration. *)
Theorem events_positive_duration (boot : timestamp) (inputs : list (timestamp * bool)) :
  Sorted.StronglySorted Z.lt (map fst inputs) ->
  Forall (fun e => 0 < ev_duration e /\ ev_type e = "disconnect" /\
                   ev_details e = (ev_timestamp e, ev_timestamp e + ev_duration e))
    (emitted (snd (run_verdicts inputs (init_state boot)))).
Proof.
  apply events_well_formed_from. simpl. discriminate.
Qed.

Lemma events_positive_duration_witness :
  Sorted.StronglySorted Z.lt [1; 2; 4; 8] /\
  Forall (fun e => 0 < ev_duration e /\ ev_type e = "disconnect" /\
                   ev_details e = (ev_timestamp e, ev_timestamp e + ev_duration e))
    (emitted (snd (run_verdicts [(1, false); (2, true); (4, false); (8, true)]
                                (init_state 0)))).
Proof.
  assert (H : Sorted.StronglySorted Z.lt [1; 2; 4; 8]).
  { repeat constructor; lia. }
  split; [exact H |].
  exact (events_positive_duration 0 [(1, false); (2, true); (4, false); (8, true)] H).
Defined.

End TraceFacts.

(* ================================================================== *)
(** * A connectivity check and its log rows *)

Module ConnectivityFacts.
Import Probe.

Local Open Scope string_scope.

Lemma probe_loop_rows (probe : string -> bool * option Q) (method : string)
    (now : Z) (targets : list string) :
  forall results s t,
    fst (fst (probe_loop probe method now targets results s t)) =
      app results
        (map (fun x => let (success, rt) := probe x in
                       mk_conn_row now (if success then "connected" else "disconnected")
                         x rt method) targets).
Proof.
  induction targets as [| x xs IH]; intros results s t; simpl.
  - rewrite app_nil_r. reflexivity.
  - destruct (probe x) as [success rt]. rewrite IH, <- app_assoc. reflexivity.
Qed.

(** The rows a check appends to connectivity.csv: one per target, the ping
    targets first and then the HTTP targets, in order, each with the status
    and the time of its own probe; the state update uses the same verdict
    the check returns. *)
Theorem test_connectivity_rows (ping http : string -> bool * option Q)
    (ping_targets http_targets : list string) (now : Z) (st : Conn.conn_state) :
  let '(connected, rows, st', ev) :=
      test_connectivity ping http ping_targets http_targets now st in
  rows = app
    (map (fun x => let (success, rt) := ping x in
                   mk_conn_row now (if success then "connected" else "disconnected")
                     x rt "ping") ping_targets)
    (map (fun x => let (success, rt) := http x in
                   mk_conn_row now (if success then "connected" else "disconnected")
                     x rt "http") http_targets) /\
  (st', ev) = Conn.handle_connection_state now connected st.
Proof.
  unfold test_connectivity.
  pose proof (probe_loop_rows ping "ping" now ping_targets [] 0 0) as H1.
  destruct (probe_loop ping "ping" now ping_targets [] 0 0) as [[r1 s1] t1].
  simpl in H1.
  pose proof (probe_loop_rows http "http" now http_targets r1 s1 t1) as H2.
  destruct (probe_loop http "http" now http_targets r1 s1 t1) as [[r2 s2] t2].
  simpl in H2.
  destruct (Conn.handle_connection_state _ _ _) as [st' ev] eqn:E.
  split; [rewrite H2, H1; reflexivity | symmetry; exact E].
Qed.

Lemma verdict_of_six (s : Z) : verdict s 6 = Z.leb 4 s.
Proof.
  unfold verdict, py_gt.
  destruct (Qle_bool _ _) eqn:E; destruct (Z.leb 4 s) eqn:E2; try reflexivity.
  - apply Qle_bool_iff in E. apply Z.leb_le in E2.
    unfold Qle in E; simpl in E. lia.
  - apply Z.leb_gt in E2. exfalso.
    assert (Hle : (inject_Z s <= inject_Z 6 * (1 # 2))%Q) by (unfold Qle; simpl; lia).
    apply Qle_bool_iff in Hle. congruence.
Qed.

(** With the three ping and three HTTP targets of [__init__], a check
    reports connected exactly when at least 4 of its 6 probes succeed. *)
Theorem default_targets_four_of_six (ping http : string -> bool * option Q)
    (now : Z) (st : Conn.conn_state) :
  let '(connected, _, _, _) :=
      test_connectivity ping http Ping.default_ping_targets Ping.default_http_targets now st in
  connected =
    Z.leb 4 (count_true (batch ping http Ping.default_ping_targets Ping.default_http_targets)).
Proof.
  unfold test_connectivity.
  pose proof (ProbeFacts.probe_loop_counts ping "ping" now Ping.default_ping_targets [] 0 0) as H1.
  destruct (probe_loop ping "ping" now Ping.default_ping_targets [] 0 0) as [[r1 s1] t1].
  destruct H1 as [Hs1 Ht1].
  pose proof (ProbeFacts.probe_loop_counts http "http" now Ping.default_http_targets r1 s1 t1) as H2.
  destruct (probe_loop http "http" now Ping.default_http_targets r1 s1 t1) as [[r2 s2] t2].
  destruct H2 as [Hs2 Ht2].
  destruct (Conn.handle_connection_state _ _ _) as [st' ev].
  simpl in Ht1, Ht2. replace t2 with 6 by lia.
  rewrite verdict_of_six. unfold batch. rewrite ProbeFacts.count_true_app.
  f_equal. lia.
Qed.

Lemma dict_reader_app (header : list string) (old new : list (list string)) :
  Forall (fun r => r <> []) new ->
  Report.dict_reader (header :: app old new) =
    app (Report.dict_reader (header :: old)) (map (Report.make_dict header) new).
Proof.
  intros Hnew. simpl. rewrite filter_app, map_app. f_equal. f_equal.
  induction Hnew as [| r rs Hr _ IH]; [reflexivity |].
  simpl. destruct r as [| v vs]; [contradiction |]. rewrite IH. reflexivity.
Qed.

Lemma rendered_failed (show_ts : Z -> string) (show_num : Q -> string)
    (probe : string -> bool * option Q) (now : Z) (method : string) (targets : list string) :
  (List.length
     (filter (Report.status_is "disconnected")
        (map (Report.make_dict Store.connectivity_header)
           (map (Store.render_conn_row show_ts show_num)
              (map (fun x => let (success, rt) := probe x in
                             mk_conn_row now (if success then "connected" else "disconnected")
                               x rt method) targets))))
   + List.length (filter (fun b => b) (map (fun x => fst (probe x)) targets)))%nat =
  List.length targets.
Proof.
  assert (Hs : forall x (success : bool) rt,
    Report.status_is "disconnected"
      (Report.make_dict Store.connectivity_header
         (Store.render_conn_row show_ts show_num
            (mk_conn_row now (if success then "connected" else "disconnected")
               x rt method))) = negb success).
  { intros x [] rt; reflexivity. }
  induction targets as [| x xs IH]; [reflexivity |].
  cbn [map]. destruct (probe x) as [success rt]. cbn [filter fst].
  rewrite Hs. destruct success; cbn [negb List.length]; lia.
Qed.

(** Appending the rows of a check to connectivity.csv (its header first)
    grows the report's total by the number of probes and its failed count by
    the number of failed probes. *)
Theorem connectivity_log_accumulates (show_ts : Z -> string) (show_num : Q -> string)
    (ping http : string -> bool * option Q) (ping_targets http_targets : list string)
    (now : Z) (st : Conn.conn_state) (old : list (list string)) :
  let b := batch ping http ping_targets http_targets in
  let old_rows := Report.dict_reader (Store.connectivity_header :: old) in
  let '(_, rows, _, _) :=
      test_connectivity ping http ping_targets http_targets now st in
  exists rate,
    Report.connectivity_summary
      (Store.append_rows (Some (Store.connectivity_header :: old))
         (map (Store.render_conn_row show_ts show_num) rows)) =
    inr (Some (Report.ConnectivitySummary
                 (Report.count old_rows + Z.of_nat (List.length b))
                 (Report.count (filter (Report.status_is "disconnected") old_rows) +
                  (Z.of_nat (List.length b) - count_true b))
                 rate)).
Proof.
  cbv zeta.
  pose proof (test_connectivity_rows ping http ping_targets http_targets now st) as Hrows.
  destruct (test_connectivity _ _ _ _ _ _) as [[[connected rows] st'] ev].
  destruct Hrows as [-> _].
  unfold Store.append_rows. rewrite <- app_comm_cons.
  unfold Report.connectivity_summary.
  rewrite (ReportFacts.filter_exc_total _ (Report.status_is "disconnected")).
  2:{ intros r Hr. destruct (ReportFacts.dict_reader_rows _ _ _ Hr) as [row ->].
      unfold Report.field_is, Report.status_is.
      destruct (ReportFacts.row_get_header Store.connectivity_header row "status")
        as [v ->]; [simpl; tauto | reflexivity]. }
  rewrite dict_reader_app.
  2:{ apply Forall_forall. intros r Hr. apply in_map_iff in Hr.
      destruct Hr as [x [<- _]]. discriminate. }
  eexists. f_equal. f_equal. f_equal.
  - unfold Report.count, batch.
    repeat rewrite ?length_app, ?length_map, ?map_app. lia.
  - unfold Report.count, batch, count_true.
    repeat rewrite ?map_app, ?filter_app, ?length_app.
    pose proof (rendered_failed show_ts show_num ping now "ping" ping_targets).
    pose proof (rendered_failed show_ts show_num http now "http" http_targets).
    rewrite ?length_map. lia.
Qed.

End ConnectivityFacts.

(* ================================================================== *)
(** * The log files and the report sections *)

Module LogReportFacts.
Import Report.

Local Open Scope string_scope.

(** A report on a log directory right after [_init_csv_files], where each
    file was missing or held only its header, writes the title and a
    connectivity summary of 0 tests, 0 failures and rate 0, and no other
    section; the report file is returned. *)
Theorem report_on_fresh_logs (fs : Store.log_files) :
  (Store.connectivity_csv fs = None \/
   Store.connectivity_csv fs = Some [Store.connectivity_header]) ->
  (Store.speedtest_csv fs = None \/ Store.speedtest_csv fs = Some [Store.speedtest_header]) ->
  (Store.events_csv fs = None \/ Store.events_csv fs = Some [Store.events_header]) ->
  let fs' := Store.init_csv_files fs in
  generate_report (Store.connectivity_csv fs') (Store.events_csv fs') (Store.speedtest_csv fs') =
    ([Header; ConnectivitySummary 0 0 0%Q], true).
Proof.
  destruct fs as [c s e]; simpl.
  intros [-> | ->] [-> | ->] [-> | ->]; reflexivity.
Qed.

Lemma report_on_fresh_logs_witness :
  generate_report
    (Store.connectivity_csv (Store.init_csv_files (Store.mk_log_files None None None)))
    (Store.events_csv (Store.init_csv_files (Store.mk_log_files None None None)))
    (Store.speedtest_csv (Store.init_csv_files (Store.mk_log_files None None None))) =
  ([Header; ConnectivitySummary 0 0 0%Q], true).
Proof.
  exact (report_on_fresh_logs (Store.mk_log_files None None None)
           (or_introl eq_refl) (or_introl eq_refl) (or_introl eq_refl)).
Defined.

End LogReportFacts.

(* ================================================================== *)
(** * Uploads and the configuration *)

Module UploadFacts.
Import Speed Upload.

Local Open Scope string_scope.








(** With the configuration written when the config file is missing, and
    with any configuration that has no [enabled] option for [VPS],
    [upload_logs] runs no command and returns normally. *)
Theorem upload_off_by_default (cfg : config) (env : process_env)
    (expanduser local_path : string -> string) (exists_ : string -> bool)
    (reports : list (string * Z)) (st : speed_state) :
  (cfg = init_config None \/ exists e, cfg_get cfg "VPS" "enabled" = inl e) ->
  upload_logs cfg env expanduser local_path exists_ reports st = (inr tt, st).
Proof.
  intros [-> | [e He]].
  - reflexivity.
  - unfold upload_logs, getboolean. rewrite He. reflexivity.
Qed.

Lemma upload_off_by_default_witness :
  upload_logs (init_config None) (fun _ => inr (mk_completed 0 None))
    (fun p => p) (fun f => f) (fun _ => true) [("report_1.txt", 1)] (mk_speed_state [] []) =
  (inr tt, mk_speed_state [] []).
Proof.
  exact (upload_off_by_default (init_config None) (fun _ => inr (mk_completed 0 None))
           (fun p => p) (fun f => f) (fun _ => true) [("report_1.txt", 1)]
           (mk_speed_state [] []) (or_introl eq_refl)).
Defined.

(** With uploads enabled but one of hostname, username, key_file or
    remote_directory missing, [upload_logs] runs no command and returns
    normally: the error is caught and only logged. *)
Theorem upload_missing_option_quiet (cfg : config) (env : process_env)
    (expanduser local_path : string -> string) (exists_ : string -> bool)
    (reports : list (string * Z)) (st : speed_state) (o : string) (e : cfg_error) :
  getboolean cfg "VPS" "enabled" false = inr true ->
  In o ["hostname"; "username"; "key_file"; "remote_directory"] ->
  cfg_get cfg "VPS" o = inl e ->
  upload_logs cfg env expanduser local_path exists_ reports st = (inr tt, st).
Proof.
  intros Hb Hin Ho.
  unfold upload_logs. rewrite Hb. unfold catch_all, lift, bind.
  destruct (cfg_get cfg "VPS" "hostname") as [e1 | h] eqn:E1; [reflexivity |].
  destruct (cfg_get cfg "VPS" "username") as [e2 | u] eqn:E2; [reflexivity |].
  destruct (cfg_get cfg "VPS" "key_file") as [e3 | k] eqn:E3; [reflexivity |].
  destruct (cfg_get cfg "VPS" "remote_directory") as [e4 | d] eqn:E4; [reflexivity |].
  exfalso. destruct Hin as [<- | [<- | [<- | [<- | []]]]]; congruence.
Qed.

Lemma upload_missing_option_quiet_witness :
  upload_logs [("VPS", [("enabled", "yes"); ("username", "mon")])]
    (fun _ => inr (mk_completed 0 None))
    (fun p => p) (fun f => f) (fun _ => true) [] (mk_speed_state [] []) =
  (inr tt, mk_speed_state [] []).
Proof.
  exact (upload_missing_option_quiet [("VPS", [("enabled", "yes"); ("username", "mon")])]
           (fun _ => inr (mk_completed 0 None)) (fun p => p) (fun f => f) (fun _ => true) []
           (mk_speed_state [] []) "hostname" (NoOptionError "hostname" "VPS")
           eq_refl (or_introl eq_refl) eq_refl).
Defined.






End UploadFacts.

(* ================================================================== *)
(** * The processes a speed test starts *)

Module SpeedProcessFacts.
Import Speed.

Local Open Scope string_scope.

Lemma bind_invoked {A B} (m : M A) (k : A -> M B) :
  (forall st, invoked (snd (m st)) = invoked st) ->
  (forall a st, invoked (snd (k a st)) = invoked st) ->
  forall st, invoked (snd (bind m k st)) = invoked st.
Proof.
  intros Hm Hk st. unfold bind. specialize (Hm st).
  destruct (m st) as [[e | a] st']; simpl in *; [exact Hm | rewrite Hk; exact Hm].
Qed.

Lemma bind_no_fnf {A B} (m : M A) (k : A -> M B) :
  (forall st f, fst (m st) <> inl (FileNotFoundError f)) ->
  (forall a st f, fst (k a st) <> inl (FileNotFoundError f)) ->
  forall st f, fst (bind m k st) <> inl (FileNotFoundError f).
Proof.
  intros Hm Hk st f. unfold bind. specialize (Hm st f).
  destruct (m st) as [[e | a] st']; simpl in *; [| apply Hk].
  intros H. injection H as ->. apply Hm. reflexivity.
Qed.

Lemma bind_subprocess {A} (env : process_env) (c : list string) (k : completed -> M A) st :
  bind (subprocess_run env c) k st =
    match env c with
    | inl e => (inl e, mk_speed_state (app (invoked st) [c]) (speed_rows st))
    | inr r => k r (mk_speed_state (app (invoked st) [c]) (speed_rows st))
    end.
Proof. unfold bind, subprocess_run. destruct (env c); reflexivity. Qed.

Lemma py_get_invoked d k df st : invoked (snd (py_get d k df st)) = invoked st.
Proof. destruct d; reflexivity. Qed.

Lemma py_index_invoked d k st : invoked (snd (py_index d k st)) = invoked st.
Proof. destruct d; try reflexivity. simpl. destruct (dict_lookup k kvs); reflexivity. Qed.

Lemma div_mega_invoked x st : invoked (snd (div_mega x st)) = invoked st.
Proof. destruct x; reflexivity. Qed.

Lemma json_loads_invoked r st : invoked (snd (json_loads r st)) = invoked st.
Proof. unfold json_loads. destruct (stdout_json r); reflexivity. Qed.

Lemma py_get_no_fnf d k df st f : fst (py_get d k df st) <> inl (FileNotFoundError f).
Proof. destruct d; discriminate. Qed.

Lemma py_index_no_fnf d k st f : fst (py_index d k st) <> inl (FileNotFoundError f).
Proof. destruct d; try discriminate. simpl. destruct (dict_lookup k kvs); discriminate. Qed.

Lemma div_mega_no_fnf x st f : fst (div_mega x st) <> inl (FileNotFoundError f).
Proof. destruct x; discriminate. Qed.

Lemma json_loads_no_fnf r st f : fst (json_loads r st) <> inl (FileNotFoundError f).
Proof. unfold json_loads. destruct (stdout_json r); discriminate. Qed.

Ltac invoked_chain :=
  repeat (apply bind_invoked;
          [intros ?st; first [apply py_get_invoked | apply py_index_invoked
                             | apply div_mega_invoked | apply json_loads_invoked]
          | intros ? ?st]);
  reflexivity.

Ltac no_fnf_chain :=
  repeat (apply bind_no_fnf;
          [intros ?st ?f; first [apply py_get_no_fnf | apply py_index_no_fnf
                                | apply div_mega_no_fnf | apply json_loads_no_fnf]
          | intros ? ?st ?f]);
  discriminate.

Lemma parse_primary_invoked data st : invoked (snd (parse_primary data st)) = invoked st.
Proof. revert st. unfold parse_primary. invoked_chain. Qed.

Lemma parse_fallback_invoked data st : invoked (snd (parse_fallback data st)) = invoked st.
Proof. revert st. unfold parse_fallback. invoked_chain. Qed.

Lemma parse_primary_no_fnf data st f : fst (parse_primary data st) <> inl (FileNotFoundError f).
Proof. revert st f. unfold parse_primary. no_fnf_chain. Qed.

Lemma parse_fallback_no_fnf data st f : fst (parse_fallback data st) <> inl (FileNotFoundError f).
Proof. revert st f. unfold parse_fallback. no_fnf_chain. Qed.

Lemma run_fallback_invoked env msg st :
  invoked (snd (run_fallback env msg st)) = app (invoked st) [fallback_cmd].
Proof.
  unfold run_fallback. rewrite bind_subprocess.
  destruct (env fallback_cmd) as [e | r]; [reflexivity |].
  destruct (Z.eqb (returncode r) 0); [| reflexivity].
  apply (bind_invoked _ _ (json_loads_invoked r) (fun a => parse_fallback_invoked a)).
Qed.

(** The fallback run raises [FileNotFoundError] exactly when starting
    [speedtest-cli] does. *)
Lemma run_fallback_fnf env msg st :
  match env fallback_cmd with
  | inl (FileNotFoundError f) => fst (run_fallback env msg st) = inl (FileNotFoundError f)
  | _ => forall f, fst (run_fallback env msg st) <> inl (FileNotFoundError f)
  end.
Proof.
  unfold run_fallback. rewrite bind_subprocess.
  destruct (env fallback_cmd) as [e | r].
  - destruct e; simpl; try reflexivity; intros f'; discriminate.
  - intros f. destruct (Z.eqb (returncode r) 0); [| discriminate].
    apply (bind_no_fnf _ _ (json_loads_no_fnf r) (fun a => parse_fallback_no_fnf a)).
Qed.

Lemma measure_invoked env st :
  invoked (snd (measure env st)) =
    app (invoked st)
      match env primary_cmd with
      | inl (FileNotFoundError _) => [primary_cmd; fallback_cmd]
      | inl _ => [primary_cmd]
      | inr c =>
          if Z.eqb (returncode c) 0 then [primary_cmd]
          else match env fallback_cmd with
               | inl (FileNotFoundError _) => [primary_cmd; fallback_cmd; fallback_cmd]
               | _ => [primary_cmd; fallback_cmd]
               end
      end.
Proof.
  unfold measure, catch_fnf, catch_all. rewrite bind_subprocess.
  set (st1 := mk_speed_state (app (invoked st) [primary_cmd]) (speed_rows st)).
  destruct (env primary_cmd) as [e | c].
  - destruct e; simpl; try reflexivity.
    rewrite run_fallback_invoked. unfold st1. simpl. rewrite <- app_assoc. reflexivity.
  - destruct (Z.eqb (returncode c) 0) eqn:Ec.
    + pose proof (bind_invoked _ _ (json_loads_invoked c) (fun a => parse_primary_invoked a) st1)
        as H.
      pose proof (bind_no_fnf _ _ (json_loads_no_fnf c) (fun a => parse_primary_no_fnf a) st1)
        as Hn.
      destruct (bind (json_loads c) parse_primary st1) as [[e | m] st'].
      * simpl in H, Hn. unfold st1 in H. simpl in H.
        destruct e; simpl; try (rewrite H; reflexivity).
        exfalso. exact (Hn _ eq_refl).
      * simpl in H |- *. unfold st1 in H. simpl in H. rewrite H. reflexivity.
    + pose proof (run_fallback_invoked env both_failed_msg st1) as H.
      pose proof (run_fallback_fnf env both_failed_msg st1) as Hf.
      destruct (run_fallback env both_failed_msg st1) as [[e | m] st'].
      * simpl in H, Hf |- *.
        destruct (env fallback_cmd) as [e0 | r0].
        -- destruct e0; simpl in Hf;
             try (destruct e; simpl;
                  try (rewrite H; unfold st1; simpl; rewrite <- app_assoc; reflexivity);
                  exfalso; exact (Hf _ eq_refl)).
           injection Hf as ->. simpl.
           rewrite run_fallback_invoked, H. unfold st1. simpl. rewrite <- !app_assoc.
           reflexivity.
        -- destruct e; simpl;
             try (rewrite H; unfold st1; simpl; rewrite <- app_assoc; reflexivity).
           exfalso. exact (Hf _ eq_refl).
      * simpl in H |- *. rewrite H. unfold st1. simpl. rewrite <- app_assoc.
        destruct (env fallback_cmd) as [[] | ]; try reflexivity; simpl in Hf; discriminate.
Qed.

Lemma format_1f_invoked x st : invoked (snd (format_1f x st)) = invoked st.
Proof. destruct x; reflexivity. Qed.

(** The commands a speed test starts: only [speedtest --format=json] when
    it exits 0 or raises anything but [FileNotFoundError] (a timeout is not
    retried with the fallback); after it is not found, [speedtest-cli --json]
    once; after it exits non-zero, [speedtest-cli --json], and a second time
    when that first run raises [FileNotFoundError], which the same [except]
    catches. *)
Theorem speedtest_commands (env : process_env) (now : Z) (st : speed_state) :
  invoked (snd (run_speedtest env now st)) =
    app (invoked st)
      match env primary_cmd with
      | inl (FileNotFoundError _) => [primary_cmd; fallback_cmd]
      | inl _ => [primary_cmd]
      | inr c =>
          if Z.eqb (returncode c) 0 then [primary_cmd]
          else match env fallback_cmd with
               | inl (FileNotFoundError _) => [primary_cmd; fallback_cmd; fallback_cmd]
               | _ => [primary_cmd; fallback_cmd]
               end
      end.
Proof.
  rewrite <- measure_invoked.
  unfold run_speedtest, catch_all, bind.
  destruct (measure env st) as [[e | m] st1]; [reflexivity |].
  destruct m as [[[dl ul] pm] srv].
  pose proof (format_1f_invoked pm st1) as Hf.
  destruct (format_1f pm st1) as [[e | []] st2]; simpl in Hf |- *; exact Hf.
Qed.

(** When starting the primary tool raises anything but [FileNotFoundError]
    (for instance [TimeoutExpired]), the speed test starts no other command,
    appends one [failed: <reason>] row for that exception and returns
    [False]. *)
Theorem primary_error_no_fallback (env : process_env) (now : Z) (st : speed_state)
    (e : pyexc) :
  (forall f, e <> FileNotFoundError f) ->
  env primary_cmd = inl e ->
  run_speedtest env now st =
    (inr false, mk_speed_state (app (invoked st) [primary_cmd])
                  (app (speed_rows st) [failed_row now e])).
Proof.
  intros Hne He.
  unfold run_speedtest, catch_all at 1, bind at 1, measure, catch_fnf, catch_all.
  rewrite bind_subprocess, He.
  destruct e; try (exfalso; eapply Hne; reflexivity); reflexivity.
Qed.

Lemma primary_error_no_fallback_witness :
  run_speedtest (fun _ => inl (TimeoutExpired "speedtest --format=json")) 5
    (mk_speed_state [] []) =
  (inr false, mk_speed_state [primary_cmd]
     [mk_speed_row 5 None None None None
        "failed: Command 'speedtest --format=json' timed out after 120 seconds"]).
Proof.
  exact (primary_error_no_fallback (fun _ => inl (TimeoutExpired "speedtest --format=json")) 5
           (mk_speed_state [] []) (TimeoutExpired "speedtest --format=json")
           ltac:(discriminate) eq_refl).
Defined.

End SpeedProcessFacts.
